(** * Advanced Data Sweeper: the tabular cleaning and conversion pipeline

    A shallow embedding of [main.py].  The script is a Streamlit page that
    loads each uploaded file into a pandas [DataFrame], applies the selected
    cleaning steps, projects the frame onto the chosen columns, optionally
    draws a chart and offers the frame for download in CSV or Excel format.

    The embedding has three layers:
    - [Py]: the Python string functions the script calls ([str.lower],
      [str.replace], [os.path.splitext]) and Python exceptions;
    - [Pandas]: the [DataFrame] operations the script calls
      ([drop_duplicates], [select_dtypes], [mean], [fillna], column
      assignment, [drop], [df[list]]), over int64, float64 and object
      columns, with IEEE binary64 floats ([PrimFloat]) where NaN is the
      missing marker;
    - [App]: the statements of [main.py] themselves, with the widget values
      of one script run as input and the Streamlit session state threaded
      through the runs.

    Not modelled: bool and datetime columns (both are non-numeric for
    [select_dtypes] and are handled like object columns by every step),
    column labels that are not strings (a frame of this model has text
    labels, as [read_csv] gives them), the lower-casing of letters outside
    ASCII, the byte formats written by [to_csv] and [to_excel], and the
    computation inside [df.corr()], whose outcome (a matrix or an
    exception) is an input of the run. *)

From Stdlib Require Import ZArith List Bool Ascii String Lia Floats.
From stdpp Require Import base option list strings gmap.

Open Scope string_scope.

(** ** Python strings and exceptions *)

Module Py.

Inductive exn : Type :=
| KeyError (labels : list string)
| ValueError (msg : string)
| TypeError (msg : string)
| AttributeError (msg : string)
| NameError (name : string)
| DuplicateWidgetID (key : string).

Inductive result (A : Type) : Type :=
| Ok (a : A)
| Raise (e : exn).
Arguments Ok {A} a.
Arguments Raise {A} e.

Definition bind {A B} (r : result A) (k : A -> result B) : result B :=
  match r with
  | Ok a => k a
  | Raise e => Raise e
  end.

Definition is_ok {A} (r : result A) : bool :=
  match r with Ok _ => true | Raise _ => false end.

(** [c.isascii()] on one character. *)
Definition isascii_char (c : ascii) : bool := (nat_of_ascii c <? 128)%nat.

(** [s.isascii()]. *)
Fixpoint isascii (s : string) : bool :=
  match s with
  | EmptyString => true
  | String c s' => isascii_char c && isascii s'
  end.

(** [c.lower()] on one ASCII character. *)
Definition lower_char (c : ascii) : ascii :=
  let n := nat_of_ascii c in
  if (65 <=? n)%nat && (n <=? 90)%nat then ascii_of_nat (n + 32) else c.

(** [s.lower()] for a string of ASCII characters ([isascii]).  Python
    also lower-cases the cased letters outside ASCII; this function
    leaves every other character as it is, so what is stated through it
    about arbitrary text is stated for ASCII text. *)
Fixpoint lower (s : string) : string :=
  match s with
  | EmptyString => EmptyString
  | String c s' => String (lower_char c) (lower s')
  end.

(** [s.startswith(p)]. *)
Fixpoint startswith (s p : string) : bool :=
  match p, s with
  | EmptyString, _ => true
  | String a p', String b s' => Ascii.eqb a b && startswith s' p'
  | String _ _, EmptyString => false
  end.

(** The scan of [str.replace] for a non-empty [old]: left to right, each
    match is replaced and the scan resumes after it ([skip] characters of
    a match are still to be passed over). *)
Fixpoint replace_scan (old new : string) (skip : nat) (s : string) : string :=
  match s with
  | EmptyString => EmptyString
  | String c s' =>
      match skip with
      | S k => replace_scan old new k s'
      | O =>
          if startswith s old
          then new ++ replace_scan old new (String.length old - 1) s'
          else String c (replace_scan old new 0 s')
      end
  end.

(** With an empty [old], Python inserts [new] before every character and
    at the end. *)
Fixpoint replace_empty (new : string) (s : string) : string :=
  match s with
  | EmptyString => new
  | String c s' => new ++ String c (replace_empty new s')
  end.

(** [s.replace(old, new)]: every non-overlapping occurrence. *)
Definition replace (s old new : string) : string :=
  match old with
  | EmptyString => replace_empty new s
  | String _ _ => replace_scan old new 0 s
  end.

Fixpoint rfind_from (c : ascii) (s : string) (i last : Z) : Z :=
  match s with
  | EmptyString => last
  | String d s' => rfind_from c s' (i + 1) (if Ascii.eqb d c then i else last)
  end.

(** [s.rfind(c)] for a one-character [c]: the last index, or -1. *)
Definition rfind (s : string) (c : ascii) : Z := rfind_from c s 0 (-1).

(** [s[a:b]] for [0 <= a]. *)
Definition slice (s : string) (a b : Z) : string :=
  substring (Z.to_nat a) (Z.to_nat (b - a)) s.

(** [s[a:]] for [0 <= a]. *)
Definition slice_from (s : string) (a : Z) : string :=
  substring (Z.to_nat a) (String.length s - Z.to_nat a) s.

Fixpoint all_dots (s : string) : bool :=
  match s with
  | EmptyString => true
  | String c s' => Ascii.eqb c "." && all_dots s'
  end.

(** [os.path.splitext(p)] (posixpath: separator [/], extension separator
    [.]): the extension starts at the last dot of the last path component,
    unless only dots precede it there. *)
Definition splitext (p : string) : string * string :=
  let sepIndex := rfind p "/" in
  let dotIndex := rfind p "." in
  if (sepIndex <? dotIndex)%Z then
    if all_dots (slice p (sepIndex + 1) dotIndex)
    then (p, EmptyString)
    else (slice p 0 dotIndex, slice_from p dotIndex)
  else (p, EmptyString).

(** The string with [f] applied to each character. *)
Fixpoint translate (f : ascii -> ascii) (s : string) : string :=
  match s with
  | EmptyString => EmptyString
  | String c s' => String (f c) (translate f s')
  end.

(** [x in l] for a list of strings. *)
Definition contains (l : list string) (x : string) : bool :=
  existsb (String.eqb x) l.

End Py.

Export Py.

#[export] Instance result_ret : MRet Py.result := @Py.Ok.
#[export] Instance result_bind : MBind Py.result :=
  fun A B (k : A -> Py.result B) (r : Py.result A) => Py.bind r k.

(** ** pandas: columns, frames and the operations the script calls *)

Module Pandas.

(** A Python object held in an object column: text, or a float (the
    missing cell of an object column is the float NaN). *)
Inductive pyobj : Type :=
| PyStr (s : string)
| PyFloat (f : float).

(** A column with its dtype.  An int64 column has no missing cell; the
    missing cell of a float64 column is NaN. *)
Inductive Series : Type :=
| Int64 (v : list Z)
| Float64 (v : list float)
| Object (v : list pyobj).

(** One cell, whatever its column's dtype. *)
Inductive scalar : Type :=
| I64 (z : Z)
| F64 (f : float)
| Obj (o : pyobj).

Definition values (s : Series) : list scalar :=
  match s with
  | Int64 v => map I64 v
  | Float64 v => map F64 v
  | Object v => map Obj v
  end.

Definition len (s : Series) : nat := length (values s).

(** [pandas.isna] on a cell. *)
Definition isna (x : scalar) : bool :=
  match x with
  | I64 _ => false
  | F64 f => is_nan f
  | Obj (PyStr _) => false
  | Obj (PyFloat f) => is_nan f
  end.

(** A frame: the row labels and the named columns, in column order. *)
Record DataFrame : Type := mkDF {
  index : list Z;
  columns : list (string * Series)
}.

Definition names (df : DataFrame) : list string := map fst (columns df).

(** Every column is as long as the index. *)
Definition wf (df : DataFrame) : Prop :=
  Forall (fun c => len (snd c) = length (index df)) (columns df).

(** [df.empty]: one of the two axes has length 0. *)
Definition empty (df : DataFrame) : bool :=
  match index df, columns df with
  | _ :: _, _ :: _ => false
  | _, _ => true
  end.

(** *** Selection by a boolean mask *)

Fixpoint take_mask {A} (m : list bool) (l : list A) : list A :=
  match m, l with
  | b :: m', x :: l' => if b then x :: take_mask m' l' else take_mask m' l'
  | _, _ => []
  end.

Definition series_mask (m : list bool) (s : Series) : Series :=
  match s with
  | Int64 v => Int64 (take_mask m v)
  | Float64 v => Float64 (take_mask m v)
  | Object v => Object (take_mask m v)
  end.

(** [df[mask]]: the rows whose mask entry is true, labels kept. *)
Definition getitem_mask (df : DataFrame) (m : list bool) : DataFrame :=
  {| index := take_mask m (index df);
     columns := map (fun c => (fst c, series_mask m (snd c))) (columns df) |}.

(** *** drop_duplicates *)

(** Equality of two floats as keys of pandas' hash tables: IEEE equality,
    and NaN equal to NaN. *)
Definition float_eqb (a b : float) : bool :=
  (a =? b)%float || (is_nan a && is_nan b).

Definition pyobj_eqb (a b : pyobj) : bool :=
  match a, b with
  | PyStr s, PyStr t => String.eqb s t
  | PyFloat f, PyFloat g => float_eqb f g
  | _, _ => false
  end.

Definition scalar_eqb (a b : scalar) : bool :=
  match a, b with
  | I64 x, I64 y => Z.eqb x y
  | F64 f, F64 g => float_eqb f g
  | Obj o, Obj p => pyobj_eqb o p
  | _, _ => false
  end.

Fixpoint row_eqb (r1 r2 : list scalar) : bool :=
  match r1, r2 with
  | [], [] => true
  | a :: r1', b :: r2' => scalar_eqb a b && row_eqb r1' r2'
  | _, _ => false
  end.

(** The rows of [n] records over the given columns (the tuples pandas builds from the columns). *)
Fixpoint zip_rows (cols : list (list scalar)) (n : nat) : list (list scalar) :=
  match cols with
  | [] => repeat [] n
  | c :: cs => zip_with cons c (zip_rows cs n)
  end.

Definition rows (df : DataFrame) : list (list scalar) :=
  zip_rows (map (fun c => values (snd c)) (columns df)) (length (index df)).

(** [duplicated(keep="first")]: a row is marked when an earlier row is
    equal to it in every column. *)
Fixpoint duplicated_from (seen rs : list (list scalar)) : list bool :=
  match rs with
  | [] => []
  | r :: rs' => existsb (row_eqb r) seen :: duplicated_from (r :: seen) rs'
  end.

Definition duplicated (df : DataFrame) : list bool :=
  duplicated_from [] (rows df).

(** [df.drop_duplicates()]: an empty frame is returned as it is, otherwise
    the rows not marked by [duplicated] are selected. *)
Definition drop_duplicates (df : DataFrame) : DataFrame :=
  if empty df then df else getitem_mask df (map negb (duplicated df)).

(** *** Columns by label and by dtype *)

Definition is_numeric (s : Series) : bool :=
  match s with
  | Int64 _ | Float64 _ => true
  | Object _ => false
  end.

(** [df.select_dtypes(include=["number"])]: the int64 and float64 columns,
    in column order. *)
Definition select_dtypes_number (df : DataFrame) : DataFrame :=
  {| index := index df;
     columns := List.filter (fun c => is_numeric (snd c)) (columns df) |}.

(** The columns that carry the label [k], in column order. *)
Definition labelled (df : DataFrame) (k : string) : list (string * Series) :=
  List.filter (fun c => String.eqb (fst c) k) (columns df).

(** The labels of [keys] that name no column of [df]. *)
Definition absent (df : DataFrame) (keys : list string) : list string :=
  List.filter (fun k => negb (contains (names df) k)) keys.

(** [df[keys]] for a list of labels: the columns named by each key, in
    the order of the keys; [KeyError] when a key names no column. *)
Definition getitem_list (df : DataFrame) (keys : list string) : result DataFrame :=
  match absent df keys with
  | [] => Ok {| index := index df; columns := flat_map (labelled df) keys |}
  | missing => Raise (KeyError missing)
  end.

(** [df[k]] where [k] labels one column. *)
Definition getitem (df : DataFrame) (k : string) : option Series :=
  match labelled df k with
  | c :: _ => Some (snd c)
  | [] => None
  end.

(** Apply [f] to the data of the columns labelled [k]. *)
Definition update_labelled (k : string) (f : Series -> Series) (df : DataFrame) : DataFrame :=
  {| index := index df;
     columns := map (fun c => if String.eqb (fst c) k then (fst c, f (snd c)) else c)
                    (columns df) |}.

(** [df[k] = s]: the column labelled [k] takes the data [s] and keeps its
    place; a new label is appended as the last column. *)
Definition setitem (df : DataFrame) (k : string) (s : Series) : DataFrame :=
  if contains (names df) k then update_labelled k (fun _ => s) df
  else {| index := index df; columns := columns df ++ [(k, s)] |}.

(** [df[keys] = value] for a frame [value]: the keys are paired with the
    columns of [value] in order, and each pair is one [df[k1] = value[k2]];
    [ValueError] when the two lengths differ. *)
Definition setitem_list (df : DataFrame) (keys : list string) (value : DataFrame)
  : result DataFrame :=
  if (length keys =? length (columns value))%nat then
    Ok (fold_left
          (fun d kk => match getitem value (snd kk) with
                       | Some s => setitem d (fst kk) s
                       | None => d
                       end)
          (zip keys (names value)) df)
  else Raise (ValueError "Columns must be same length as key").

(** *** mean and fillna *)

(** The float64 nearest to an integer. *)
Definition float_of_Z (z : Z) : float :=
  SF2Prim (binary_normalize prec emax z 0 false).

(** Summation from the left, from 0. *)
Definition fsum (l : list float) : float := fold_left PrimFloat.add l 0%float.

(** numpy adds a contiguous float64 array with its pairwise summation
    ([pairwise_sum] of numpy's [loops_utils]):
    - fewer than 8 cells are added from the left;
    - up to 128 cells are added into 8 running sums, cell [i] into sum
      [i mod 8], the 8 sums are added as a balanced tree and the cells
      after the last full group of 8 are added to the result in turn;
    - a longer array is cut at half its length, rounded down to a
      multiple of 8, and the sums of the two parts are added. *)

(** The 8 running sums after [groups] further groups of 8 cells. *)
Fixpoint accumulate8 (r a : list float) (groups : nat) : list float :=
  match groups with
  | O => r
  | S g => accumulate8 (zip_with PrimFloat.add r (firstn 8 a)) (skipn 8 a) g
  end.

Definition unrolled_sum (a : list float) : float :=
  let n := length a in
  let r := accumulate8 (firstn 8 a) (skipn 8 a) (n / 8 - 1) in
  let res :=
    match r with
    | [r0; r1; r2; r3; r4; r5; r6; r7] =>
        (((r0 + r1) + (r2 + r3)) + ((r4 + r5) + (r6 + r7)))%float
    | _ => 0%float
    end in
  fold_left PrimFloat.add (skipn (n - n mod 8) a) res.

(** The recursion on the two parts takes [fuel]; the length of the array
    is enough ([pairwise_sum_rec_fuel]). *)
Fixpoint pairwise_sum_rec (fuel : nat) (a : list float) : float :=
  let n := length a in
  if (n <? 8)%nat then fsum a
  else if (n <=? 128)%nat then unrolled_sum a
  else
    match fuel with
    | O => 0%float
    | S f =>
        let n2 := (n / 2 - (n / 2) mod 8)%nat in
        (pairwise_sum_rec f (firstn n2 a) + pairwise_sum_rec f (skipn n2 a))%float
    end.

Definition pairwise_sum (a : list float) : float := pairwise_sum_rec (length a) a.

(** [a.sum()] for a float64 array: the pairwise sum is added to the
    initial value 0 of the reduction.  (Versions of numpy differ in the
    sign of the zero a sum starts from; this shows only in the sum of
    cells that are all -0.0.) *)
Definition np_sum (a : list float) : float := (0 + pairwise_sum a)%float.

(** [nanmean] with [skipna=True], as pandas computes it without the
    optional bottleneck library: the missing cells count as 0 in the sum
    and are left out of the count; NaN when no cell is present. *)
Definition nanmean (v : list float) : float :=
  let count := length (List.filter (fun x => negb (is_nan x)) v) in
  let the_sum := np_sum (map (fun x => if is_nan x then 0%float else x) v) in
  if (0 <? count)%nat then (the_sum / float_of_Z (Z.of_nat count))%float else nan.

(** [s.mean()]; an object column has no mean.  (The mean of an int64
    column is never used by the script: such a column has no missing cell
    to fill.  numpy casts its cells through a buffer, which is left
    out here.) *)
Definition series_mean (s : Series) : result float :=
  match s with
  | Int64 v => Ok (nanmean (map float_of_Z v))
  | Float64 v => Ok (nanmean v)
  | Object _ => Raise (TypeError "Could not convert to numeric")
  end.

Fixpoint column_means (cols : list (string * Series)) : result (list (string * float)) :=
  match cols with
  | [] => Ok []
  | c :: cs =>
      m ← series_mean (snd c);
      ms ← column_means cs;
      Ok ((fst c, m) :: ms)
  end.

(** [df.mean()]: the mean of every column, labelled by the column. *)
Definition mean (df : DataFrame) : result (list (string * float)) :=
  column_means (columns df).

(** The mean of a numeric column. *)
Definition numeric_mean (s : Series) : float :=
  match s with
  | Int64 v => nanmean (map float_of_Z v)
  | Float64 v => nanmean v
  | Object _ => nan
  end.

(** [s.fillna(v)]: the missing cells take the value [v]. *)
Definition series_fillna (v : float) (s : Series) : Series :=
  match s with
  | Int64 l => Int64 l
  | Float64 l => Float64 (map (fun x => if is_nan x then v else x) l)
  | Object l => Object (map (fun o => if isna (Obj o) then PyFloat v else o) l)
  end.

(** [df.fillna(value)] for a labelled [value]: for each label of [value]
    that [df] has, the column is filled with that label's value. *)
Definition fillna (df : DataFrame) (value : list (string * float)) : DataFrame :=
  fold_left (fun d kv => update_labelled (fst kv) (series_fillna (snd kv)) d) value df.

(** *** Renaming and dropping columns *)

(** [df.columns = new]: [ValueError] when the number of labels differs;
    equal labels are accepted. *)
Definition set_columns (df : DataFrame) (new : list string) : result DataFrame :=
  if (length new =? length (columns df))%nat then
    Ok {| index := index df;
          columns := zip_with (fun n c => (n, snd c)) new (columns df) |}
  else Raise (ValueError "Length mismatch").

(** [df.drop(columns=labels)]: [KeyError] when a label names no column,
    otherwise every column whose label is listed is removed. *)
Definition drop_columns (df : DataFrame) (labels : list string) : result DataFrame :=
  match absent df labels with
  | [] => Ok {| index := index df;
                columns := List.filter (fun c => negb (contains labels (fst c)))
                                       (columns df) |}
  | missing => Raise (KeyError missing)
  end.

End Pandas.

Export Pandas.

(** ** main.py *)

Module App.

(** *** What the page shows *)

(** The buffer a download button serves: what [df.to_csv(buffer,
    index=False)] or [df.to_excel(buffer, index=False)] wrote. *)
Inductive export : Type :=
| To_csv (df : DataFrame)
| To_excel (df : DataFrame).

(** The charts, each with the data it is given; [Heatmap_of_corr data]
    is the heat map of the matrix that [data.corr()] returned. *)
Inductive chart : Type :=
| Bar_chart (data : DataFrame)
| Line_chart (data : DataFrame)
| Bar_chart_of_column (data : Series)
| Scatterplot (data : DataFrame) (x y : string)
| Boxplot (data : DataFrame) (x y : string)
| Heatmap_of_corr (data : DataFrame).

(** The calls that show a message, a chart or a download button.  Titles,
    dividers, the file facts and the preview are layout and are left out,
    and so are the emoji of the messages. *)
Inductive ui : Type :=
| St_warning (msg : string)
| St_error (msg : string)
| St_error_loading (e : exn)
| St_success (msg : string)
| St_info (msg : string)
| St_chart (c : chart)
| St_download_button (label : string) (data : export) (file_name mime : string)
| St_balloons.

(** *** Session state *)

(** A value of a keyed widget. *)
Inductive wval : Type :=
| WList (l : list string)
| WStr (s : string)
| WBool (b : bool).

(** A value stored in [st.session_state]. *)
Inductive ssval : Type :=
| Dict (d : gmap string DataFrame)
| Flag (b : bool)
| Frame (df : DataFrame)
| Widget (w : wval).

(** The state of one script run: the session state, which outlives the
    run, the widget keys used so far in this run, and what was shown. *)
Record world : Type := mkWorld {
  session_state : gmap string ssval;
  rendered : list string;
  shown : list ui
}.

(** A statement of the script: it changes the world and returns a value
    or raises; the world at the point of the exception is kept. *)
Definition script (A : Type) : Type := world -> world * result A.

#[export] Instance script_ret : MRet script := fun A a w => (w, Ok a).
#[export] Instance script_bind : MBind script :=
  fun A B (k : A -> script B) (m : script A) w =>
    match m w with
    | (w', Ok a) => k a w'
    | (w', Raise e) => (w', Raise e)
    end.

Definition lift {A} (r : result A) : script A := fun w => (w, r).

Definition show (u : ui) : script unit :=
  fun w => (mkWorld (session_state w) (rendered w) (shown w ++ [u]), Ok tt).

Definition get_session : script (gmap string ssval) :=
  fun w => (w, Ok (session_state w)).

(** [st.session_state[key] = v]. *)
Definition set_session (key : string) (v : ssval) : script unit :=
  fun w => (mkWorld (<[key := v]> (session_state w)) (rendered w) (shown w), Ok tt).

(** A widget created with [key=]: a key used twice in one run is an
    error, otherwise the widget's value is stored under the key and
    returned.  (Streamlit forgets the value of a widget that a later run
    does not create; the entries are kept here, which only makes the
    session state larger.) *)
Definition widget (key : string) (v : wval) : script unit :=
  fun w =>
    if contains (rendered w) key then (w, Raise (DuplicateWidgetID key))
    else (mkWorld (<[key := Widget v]> (session_state w)) (key :: rendered w) (shown w),
          Ok tt).

Definition multiselect (key : string) (v : list string) : script (list string) :=
  _ ← widget key (WList v); mret v.
Definition selectbox (key : string) (v : string) : script string :=
  _ ← widget key (WStr v); mret v.
Definition radio (key : string) (v : string) : script string :=
  _ ← widget key (WStr v); mret v.
Definition checkbox (key : string) (v : bool) : script bool :=
  _ ← widget key (WBool v); mret v.
Definition button (key : string) (v : bool) : script bool :=
  _ ← widget key (WBool v); mret v.

(** *** The input of one run *)

(** An uploaded file: its name, and what [pd.read_csv] and [pd.read_excel]
    return on its bytes. *)
Record UploadedFile : Type := mkFile {
  name : string;
  read_csv : result DataFrame;
  read_excel : result DataFrame
}.

(** The values of the widgets of one file in this run, and the one
    library call whose outcome is taken as given: [corr_raises df] is the
    exception [df.corr()] raises on the frame [df], if it raises (pandas
    raises [ValueError] when a column holds text that is not a number). *)
Record file_widgets : Type := mkWidgets {
  cleaning_options : list string;
  columns_to_remove : list string;
  columns_to_keep : list string;
  show_visualizations : bool;
  chart_type : string;
  x_axis : string;
  y_axis : string;
  conversion_type : string;
  convert_pressed : bool;
  corr_raises : DataFrame -> option exn
}.

(** The input of the whole run.  The four check boxes of the sidebar
    (lines 46-49) are never read and are left out. *)
Record run_input : Type := mkInput {
  sidebar_conversion_type : string;
  sidebar_convert_pressed : bool;
  uploaded_files : list (UploadedFile * file_widgets)
}.

Definition xlsx_mime : string :=
  "application/vnd.openxmlformats-officedocument.spreadsheetml.sheet".

(** *** The sidebar button (lines 57-68) *)

Definition sidebar_convert (inp : run_input) : script unit :=
  if sidebar_convert_pressed inp then
    ss ← get_session;
    match ss !! "df" with
    | Some v =>
        if String.eqb (sidebar_conversion_type inp) "CSV" then
          match v with
          | Frame df =>
              show (St_download_button "Download CSV" (To_csv df)
                      "converted_file.csv" "text/csv")
          | _ => lift (Raise (AttributeError "to_csv"))
          end
        else
          match v with
          | Frame df =>
              show (St_download_button "Download Excel" (To_excel df)
                      "converted_file.xlsx" xlsx_mime)
          | _ => lift (Raise (AttributeError "to_excel"))
          end
    | None => show (St_warning "No data loaded to convert.")
    end
  else mret tt.

(** *** Loading a file (lines 91-102) *)

(** [os.path.splitext(file.name)[-1].lower()]. *)
Definition file_ext_of (file_name : string) : string :=
  lower (snd (splitext file_name)).

(** The frame and the extension, or [None] after the error message when
    the loop goes on to the next file. *)
Definition load (file : UploadedFile) : script (option (string * DataFrame)) :=
  let file_ext := file_ext_of (name file) in
  if String.eqb file_ext ".csv" then
    match read_csv file with
    | Ok df => mret (Some (file_ext, df))
    | Raise e => _ ← show (St_error_loading e); mret None
    end
  else if String.eqb file_ext ".xlsx" then
    match read_excel file with
    | Ok df => mret (Some (file_ext, df))
    | Raise e => _ ← show (St_error_loading e); mret None
    end
  else
    _ ← show (St_error ("Unsupported file type: " ++ file_ext)); mret None.

(** *** The cleaning options (lines 122-139) *)

(** Lines 126-127: the numeric columns are filled with their means. *)
Definition fill_missing_values (df : DataFrame) : result DataFrame :=
  let numeric_cols := names (select_dtypes_number df) in
  selected ← getitem_list df numeric_cols;
  means ← (numeric ← getitem_list df numeric_cols; mean numeric);
  setitem_list df numeric_cols (fillna selected means).

(** Line 130: each label in lower case, each space an underscore.  (The
    labels of this model are text; on a label that is not text, as
    [read_excel] gives for a numeric header cell, [df.columns.str]
    raises.) *)
Definition standardize_name (n : string) : string := replace (lower n) " " "_".

Definition standardize_column_names (df : DataFrame) : result DataFrame :=
  set_columns df (map standardize_name (names df)).

Definition apply_cleaning (file_name : string) (w : file_widgets)
    (cleaning_options : list string) (df : DataFrame) : script DataFrame :=
  df ← (if contains cleaning_options "Remove Duplicates" then
          let df := drop_duplicates df in
          _ ← show (St_success "Duplicates removed!"); mret df
        else mret df);
  df ← (if contains cleaning_options "Fill Missing Values" then
          df ← lift (fill_missing_values df);
          _ ← show (St_success "Missing values filled!"); mret df
        else mret df);
  df ← (if contains cleaning_options "Standardize Column Names" then
          df ← lift (standardize_column_names df);
          _ ← show (St_success "Column names standardized!"); mret df
        else mret df);
  if contains cleaning_options "Remove Columns" then
    columns_to_remove ← multiselect ("remove_" ++ file_name) (columns_to_remove w);
    df ← lift (drop_columns df columns_to_remove);
    _ ← show (St_success "Columns removed!"); mret df
  else mret df.

(** Line 142: [st.session_state.cleaned_data[file.name] = df]. *)
Definition save_cleaned (file_name : string) (df : DataFrame) : script unit :=
  ss ← get_session;
  match ss !! "cleaned_data" return script unit with
  | Some (Dict d) => set_session "cleaned_data" (Dict (<[file_name := df]> d))
  | Some _ => lift (Raise (TypeError "object does not support item assignment"))
  | None => lift (Raise (AttributeError "cleaned_data"))
  end.

(** Line 152: [df = df[columns_to_keep]]. *)
Definition keep_columns (df : DataFrame) (columns_to_keep : list string) : result DataFrame :=
  getitem_list df columns_to_keep.

(** *** Visualization (lines 156-188) *)

(** [df[k]] for one label. *)
Definition column (df : DataFrame) (k : string) : result Series :=
  match getitem df k with
  | Some s => Ok s
  | None => Raise (KeyError [k])
  end.

Definition pair_charts : list string :=
  ["Bar Chart"; "Line Chart"; "Histogram"; "Scatter Plot"; "Box Plot"].

Definition visualize (file_name : string) (w : file_widgets) (df : DataFrame) : script unit :=
  viz ← checkbox ("viz_" ++ file_name) (show_visualizations w);
  if (viz : bool) return script unit then
    let numeric_cols := names (select_dtypes_number df) in
    if (0 <? length numeric_cols)%nat then
      chart_type ← selectbox ("chart_" ++ file_name) (chart_type w);
      if contains pair_charts chart_type return script unit then
        x_axis ← selectbox ("x_" ++ file_name) (x_axis w);
        y_axis ← selectbox ("y_" ++ file_name) (y_axis w);
        if String.eqb chart_type "Bar Chart" return script unit then
          d ← lift (getitem_list df [x_axis; y_axis]); show (St_chart (Bar_chart d))
        else if String.eqb chart_type "Line Chart" then
          d ← lift (getitem_list df [x_axis; y_axis]); show (St_chart (Line_chart d))
        else if String.eqb chart_type "Histogram" then
          c ← lift (column df x_axis); show (St_chart (Bar_chart_of_column c))
        else if String.eqb chart_type "Scatter Plot" then
          show (St_chart (Scatterplot df x_axis y_axis))
        else if String.eqb chart_type "Box Plot" then
          show (St_chart (Boxplot df x_axis y_axis))
        else mret tt
      else if String.eqb chart_type "Correlation Matrix" then
        match corr_raises w df return script unit with
        | Some e => lift (Raise e)
        | None => show (St_chart (Heatmap_of_corr df))
        end
      else mret tt
    else show (St_warning "No numeric columns found for visualization.")
  else mret tt.

(** *** Conversion (lines 192-219) *)

(** Lines 200-207: the buffer, the file name and the MIME type; with any
    other conversion type [file_name] is unbound at line 214. *)
Definition converted (file_name file_ext conversion_type : string) (df : DataFrame)
  : result (export * string * string) :=
  if String.eqb conversion_type "CSV" then
    Ok (To_csv df, replace file_name file_ext ".csv", "text/csv")
  else if String.eqb conversion_type "Excel" then
    Ok (To_excel df, replace file_name file_ext ".xlsx", xlsx_mime)
  else Raise (NameError "file_name").

Definition convert (file_name file_ext : string) (w : file_widgets) (df : DataFrame)
  : script unit :=
  conversion_type ← radio ("convert_" ++ file_name) (conversion_type w);
  pressed ← button ("convert_btn_" ++ file_name) (convert_pressed w);
  if (pressed : bool) return script unit then
    out ← lift (converted file_name file_ext conversion_type df);
    _ ← widget ("download_" ++ file_name) (WBool false);
    _ ← show (St_download_button
                ("Download " ++ file_name ++ " as " ++ conversion_type)
                (fst (fst out)) (snd (fst out)) (snd out));
    _ ← show (St_success (file_name ++ " converted to " ++ conversion_type ++ "!"));
    set_session "show_balloons" (Flag true)
  else mret tt.

(** *** The loop over the files and the whole script *)

Definition process_file (fw : UploadedFile * file_widgets) : script unit :=
  let file := fst fw in
  let w := snd fw in
  l ← load file;
  match l return script unit with
  | None => mret tt
  | Some (file_ext, df) =>
      cleaning_options ← multiselect ("cleaning_" ++ name file) (cleaning_options w);
      df ← apply_cleaning (name file) w cleaning_options df;
      _ ← save_cleaned (name file) df;
      columns_to_keep ← multiselect ("columns_" ++ name file) (columns_to_keep w);
      df ← lift (keep_columns df columns_to_keep);
      _ ← visualize (name file) w df;
      convert (name file) file_ext w df
  end.

Fixpoint for_each {A} (body : A -> script unit) (l : list A) : script unit :=
  match l with
  | [] => mret tt
  | x :: l' => _ ← body x; for_each body l'
  end.

(** [if key not in st.session_state: st.session_state[key] = v]. *)
Definition init_session (key : string) (v : ssval) : script unit :=
  ss ← get_session;
  match ss !! key return script unit with
  | Some _ => mret tt
  | None => set_session key v
  end.

(** Lines 222-224. *)
Definition balloons : script unit :=
  ss ← get_session;
  match ss !! "show_balloons" return script unit with
  | Some (Flag true) => _ ← show St_balloons; set_session "show_balloons" (Flag false)
  | Some (Flag false) => mret tt
  | Some _ => lift (Raise (TypeError "show_balloons"))
  | None => lift (Raise (AttributeError "show_balloons"))
  end.

Definition main (inp : run_input) : script unit :=
  _ ← sidebar_convert inp;
  _ ← init_session "cleaned_data" (Dict ∅);
  _ ← init_session "show_balloons" (Flag false);
  match uploaded_files inp return script unit with
  | [] => show (St_info "Upload your files to get started!")
  | _ :: _ => _ ← for_each process_file (uploaded_files inp); balloons
  end.

(** One run of the script from the session state [ss]: nothing is
    rendered or shown yet. *)
Definition run (inp : run_input) (ss : gmap string ssval) : world * result unit :=
  main inp (mkWorld ss [] []).

(** The session states the page can be in: a new session is empty, and
    each run (finished or stopped by an exception) leaves its state to
    the next. *)
Inductive reachable : gmap string ssval -> Prop :=
| reachable_new : reachable ∅
| reachable_run inp ss :
    reachable ss -> reachable (session_state (fst (run inp ss))).

End App.

Export App.

(** ** The cleaning contract in the words of the specification

    Section 4.2 of the specification: four operations, applied in a fixed
    canonical order whenever selected; an operation that is not selected
    is a no-op.  [Spec.clean] is written from that text, to be compared
    with [App.apply_cleaning], which is written from the code. *)

Module Spec.

Inductive operation : Type :=
| RemoveDuplicates
| FillMissingValues
| StandardizeColumnNames
| RemoveColumns.

Definition label (o : operation) : string :=
  match o with
  | RemoveDuplicates => "Remove Duplicates"
  | FillMissingValues => "Fill Missing Values"
  | StandardizeColumnNames => "Standardize Column Names"
  | RemoveColumns => "Remove Columns"
  end.

Definition canonical_order : list operation :=
  [RemoveDuplicates; FillMissingValues; StandardizeColumnNames; RemoveColumns].

Definition apply_operation (to_remove : list string) (o : operation) (df : DataFrame)
  : result DataFrame :=
  match o with
  | RemoveDuplicates => Ok (drop_duplicates df)
  | FillMissingValues => fill_missing_values df
  | StandardizeColumnNames => standardize_column_names df
  | RemoveColumns => drop_columns df to_remove
  end.

Definition clean (selected : operation -> bool) (to_remove : list string) (df : DataFrame)
  : result DataFrame :=
  fold_left
    (fun r o => df ← r; if selected o then apply_operation to_remove o df else Ok df)
    canonical_order (Ok df).

(** Remove Duplicates on rows, in the words of section 4.2: a row that
    is equal to an earlier row is dropped, the first occurrence is kept,
    and the kept rows stay in order. *)
Fixpoint first_occurrences (earlier rs : list (list scalar)) : list (list scalar) :=
  match rs with
  | [] => []
  | r :: rs' =>
      if existsb (row_eqb r) earlier
      then first_occurrences (r :: earlier) rs'
      else r :: first_occurrences (r :: earlier) rs'
  end.

(** Fill Missing Values on one column, in the words of section 4.2: in a
    numeric column each missing cell takes the mean of the column's
    present values, computed on the column as it was; a text column is
    left as it is.  (An int64 column has no missing cell.) *)
Definition fill_column (s : Series) : Series :=
  match s with
  | Int64 v => Int64 v
  | Float64 v => Float64 (map (fun x => if is_nan x then nanmean v else x) v)
  | Object v => Object v
  end.

(** The normalised form of one character of a column name: lower case,
    and an underscore for a space. *)
Definition normal_char (c : ascii) : ascii :=
  if Ascii.eqb c " " then "_"%char else lower_char c.

End Spec.

(** ** The session key of the sidebar button *)

Module Invariant.

(** Nothing is stored under the key ["df"]. *)
Definition no_df (w : world) : Prop := session_state w !! "df" = None.

(** A statement that stores nothing under ["df"], whether it returns or
    raises. *)
Definition keeps {A} (m : script A) : Prop :=
  forall w, no_df w -> no_df (fst (m w)).

End Invariant.

(** ** Conditions and invariants of the further properties *)

Module Facts.

(** [c in s] for a character. *)
Fixpoint has_char (c : ascii) (s : string) : bool :=
  match s with
  | EmptyString => false
  | String d s' => Ascii.eqb d c || has_char c s'
  end.

(** [old] occurs in [s] at one of its first [n] positions. *)
Fixpoint occurs_within (old s : string) (n : nat) : bool :=
  match n with
  | O => false
  | S n' =>
      startswith s old ||
      match s with
      | EmptyString => false
      | String _ s' => occurs_within old s' n'
      end
  end.

(** An upper-case ASCII letter. *)
Definition is_upper (c : ascii) : bool :=
  let n := nat_of_ascii c in (65 <=? n)%nat && (n <=? 90)%nat.

(** A label in standard form: no space and no upper-case ASCII letter. *)
Fixpoint standard (s : string) : bool :=
  match s with
  | EmptyString => true
  | String c s' => negb (Ascii.eqb c " ") && negb (is_upper c) && standard s'
  end.

(** The two columns have the same dtype. *)
Definition same_dtype (s t : Series) : bool :=
  match s, t with
  | Int64 _, Int64 _ | Float64 _, Float64 _ | Object _, Object _ => true
  | _, _ => false
  end.

(** No numeric cell of the frame is missing. *)
Definition no_missing_number (df : DataFrame) : bool :=
  forallb (fun c => match snd c with
                    | Float64 v => forallb (fun x => negb (is_nan x)) v
                    | Int64 _ | Object _ => true
                    end) (columns df).

(** A statement that leaves the session entry [k] as it is, whether it
    returns or raises. *)
Definition unchanged_at (k : string) {A} (m : script A) : Prop :=
  forall w, session_state (fst (m w)) !! k = session_state w !! k.

(** The two entries the script itself stores have the types the script
    gives them: a dict under ["cleaned_data"], a flag under
    ["show_balloons"]. *)
Definition typed (ss : gmap string ssval) : Prop :=
  (forall v, ss !! "cleaned_data" = Some v -> exists d, v = Dict d) /\
  (forall v, ss !! "show_balloons" = Some v -> exists b, v = Flag b).

(** A statement after which these two entries still have their types. *)
Definition keeps_typed {A} (m : script A) : Prop :=
  forall w, typed (session_state w) -> typed (session_state (fst (m w))).

End Facts.

(** ** Example frames and inputs *)

Module Examples.

(** Two labels that differ and have the same standardized form. *)
Definition colliding : DataFrame :=
  mkDF [0%Z; 1%Z] [("A B", Int64 [1%Z; 2%Z]); ("A_B", Object [PyStr "x"; PyStr "y"])].

(** A frame with a numeric column that has a missing cell, a text column
    with a missing cell, and a duplicated row. *)
Definition people : DataFrame :=
  mkDF [0%Z; 1%Z; 2%Z; 3%Z]
       [("User Name", Object [PyStr "ann"; PyStr "bob"; PyStr "bob"; PyFloat nan]);
        ("AGE", Float64 [30%float; nan; nan; 41%float]);
        ("id", Int64 [1%Z; 2%Z; 2%Z; 3%Z])].

(** A frame with a numeric column whose cells are all missing. *)
Definition sparse : DataFrame :=
  mkDF [0%Z; 1%Z]
       [("score", Float64 [nan; nan]); ("n", Int64 [7%Z; 8%Z]);
        ("s", Object [PyFloat nan; PyStr "x"])].

(** A frame with exactly one numeric column. *)
Definition one_numeric : DataFrame :=
  mkDF [0%Z; 1%Z; 2%Z] [("n", Int64 [3%Z; 1%Z; 2%Z])].

(** [df.corr()] on the frames of these examples: it raises on a frame
    that holds a text cell (no text of the examples is the text of a
    number) and returns a matrix on a frame of numeric columns. *)
Definition corr_on_examples (df : DataFrame) : option exn :=
  if existsb (fun c => match snd c with
                       | Object v =>
                           existsb (fun o => match o with
                                             | PyStr _ => true
                                             | PyFloat _ => false
                                             end) v
                       | Int64 _ | Float64 _ => false
                       end) (columns df)
  then Some (ValueError "could not convert string to float")
  else None.

(** Widget values for one file: every cleaning option selected, the
    second one first. *)
Definition widgets : file_widgets :=
  mkWidgets ["Fill Missing Values"; "Remove Duplicates";
             "Remove Columns"; "Standardize Column Names"]
            ["id"] ["user_name"; "age"]
            true "Correlation Matrix" "age" "age" "Excel" true
            corr_on_examples.

(** The same cleaning without the visualizations, converted to CSV. *)
Definition quiet_widgets : file_widgets :=
  mkWidgets ["Fill Missing Values"; "Remove Duplicates";
             "Remove Columns"; "Standardize Column Names"]
            ["id"] ["user_name"; "age"]
            false "Bar Chart" "age" "age" "CSV" true
            corr_on_examples.

(** The world at the start of a run in a new session. *)
Definition fresh : world := mkWorld ∅ [] [].

(** A run with one file, every option selected, and both conversion
    buttons pressed. *)
Definition upload : run_input :=
  mkInput "CSV" true
          [(mkFile "people.csv" (Ok people) (Raise (ValueError "not a spreadsheet")),
            widgets)].

(** The world of a run after lines 79-82, in a new session. *)
Definition started : world :=
  mkWorld (<["show_balloons" := Flag false]> (<["cleaned_data" := Dict ∅]> ∅)) [] [].

(** The file of [upload]. *)
Definition people_csv : UploadedFile :=
  mkFile "people.csv" (Ok people) (Raise (ValueError "not a spreadsheet")).

(** A run with that file, cleaned and converted to CSV, without the
    visualizations. *)
Definition quiet_upload : run_input :=
  mkInput "CSV" true [(people_csv, quiet_widgets)].

(** Widget values that ask for a line chart of two columns. *)
Definition line_chart_widgets : file_widgets :=
  mkWidgets [] [] ["id"; "AGE"] true "Line Chart" "AGE" "id" "CSV" false
            corr_on_examples.

(** A run with one file whose name has the extension twice: nothing is
    cleaned, the conversion to Excel is asked for. *)
Definition export_upload : run_input :=
  mkInput "CSV" false
          [(mkFile "my.csv_export.csv" (Ok one_numeric) (Raise (ValueError "not a spreadsheet")),
            mkWidgets [] [] ["n"] false "Bar Chart" "n" "n" "Excel" true
                      corr_on_examples)].

End Examples.

(** * Properties *)

(** ** Strings *)

Lemma lower_translate (s : string) : lower s = translate lower_char s.
Proof. induction s as [|c s IH]; simpl; [reflexivity | now rewrite IH]. Qed.


Lemma startswith_empty (s : string) : startswith s "" = true.
Proof. destruct s; reflexivity. Qed.

Lemma replace_space_translate (s : string) :
  replace s " " "_" = translate (fun c => if Ascii.eqb c " " then "_"%char else c) s.
Proof.
  unfold replace. induction s as [|c s IH]; [reflexivity|].
  cbn [replace_scan translate startswith String.length Nat.sub].
  rewrite startswith_empty, andb_true_r, IH, (Ascii.eqb_sym " " c).
  destruct (Ascii.eqb c " "); reflexivity.
Qed.

Lemma lower_char_not_space (c : ascii) :
  Ascii.eqb (lower_char c) " " = Ascii.eqb c " ".
Proof.
  destruct c as [[] [] [] [] [] [] [] []]; vm_compute; reflexivity.
Qed.

Lemma standardize_name_chars (n : string) :
  standardize_name n = translate Spec.normal_char n.
Proof.
  unfold standardize_name. rewrite replace_space_translate, lower_translate.
  induction n as [|c n IH]; simpl; [reflexivity|].
  rewrite IH. f_equal. unfold Spec.normal_char.
  rewrite lower_char_not_space. reflexivity.
Qed.

(** ** Standardize Column Names *)

Lemma zip_with_relabel (f : string -> string) (cols : list (string * Series)) :
  zip_with (fun n c => (n, snd c)) (map f (map fst cols)) cols =
  map (fun c => (f (fst c), snd c)) cols.
Proof. induction cols as [|c cols IH]; simpl; [reflexivity | now rewrite IH]. Qed.




(** ** Membership in a list of labels *)

Lemma contains_In (l : list string) (x : string) : contains l x = true <-> In x l.
Proof.
  unfold contains. rewrite existsb_exists. split.
  - intros (y & Hy & E). apply String.eqb_eq in E. now subst.
  - intros H. exists x. split; [assumption | apply String.eqb_refl].
Qed.

Lemma contains_false (l : list string) (x : string) : contains l x = false <-> ~ In x l.
Proof.
  rewrite <- contains_In. destruct (contains l x); split; intros H; congruence.
Qed.

Lemma contains_Permutation (l l' : list string) (x : string) :
  l ≡ₚ l' -> contains l x = contains l' x.
Proof.
  intros P. destruct (contains l' x) eqn:E.
  - apply contains_In. apply contains_In in E.
    rewrite <- !list_elem_of_In in *. now rewrite P.
  - apply contains_false. apply contains_false in E.
    rewrite <- !list_elem_of_In in *. now rewrite P.
Qed.

Lemma absent_nil (df : DataFrame) (keys : list string) :
  Forall (fun k => In k (names df)) keys -> absent df keys = [].
Proof.
  unfold absent. induction 1 as [|k keys Hk _ IH]; simpl; [reflexivity|].
  apply contains_In in Hk. now rewrite Hk.
Qed.

(** Closes a decidable goal about concrete labels by evaluation. *)
Ltac decide_labels := apply (bool_decide_unpack _); vm_compute; exact I.

(** ** Projection *)

Section Projection.

Variable df : DataFrame.
Hypothesis unique : NoDup (names df).

Lemma labelled_none (cols : list (string * Series)) (k : string) :
  ~ In k (map fst cols) ->
  List.filter (fun c => String.eqb (fst c) k) cols = [].
Proof.
  induction cols as [|a cols IH]; simpl; intros H; [reflexivity|].
  destruct (String.eqb_spec (fst a) k) as [E|E]; [tauto|].
  apply IH. tauto.
Qed.

Lemma filter_label_unique (cols : list (string * Series)) (c : string * Series) :
  NoDup (map fst cols) -> In c cols ->
  List.filter (fun c' => String.eqb (fst c') (fst c)) cols = [c].
Proof.
  induction cols as [|a cols IH]; simpl; intros N H; [contradiction|].
  apply NoDup_cons in N as [Ha N]. rewrite list_elem_of_In in Ha.
  destruct H as [->|H].
  - rewrite String.eqb_refl. f_equal. now apply labelled_none.
  - destruct (String.eqb_spec (fst a) (fst c)) as [E|E].
    + exfalso. apply Ha. rewrite E. now apply in_map.
    + now apply IH.
Qed.

Lemma labelled_unique (c : string * Series) :
  In c (columns df) -> labelled df (fst c) = [c].
Proof. intros H. unfold labelled. now apply filter_label_unique. Qed.

Lemma getitem_unique (c : string * Series) :
  In c (columns df) -> getitem df (fst c) = Some (snd c).
Proof. intros H. unfold getitem. now rewrite labelled_unique. Qed.

Lemma flat_map_labelled (sel : list (string * Series)) :
  Forall (fun c => In c (columns df)) sel ->
  flat_map (labelled df) (map fst sel) = sel.
Proof.
  induction 1 as [|c sel Hc _ IH]; simpl; [reflexivity|].
  now rewrite labelled_unique, IH.
Qed.

(** Selecting the labels of some columns of [df], in any order and with
    repetitions, gives exactly those columns in the order of the
    selection. *)
Lemma getitem_list_selection (sel : list (string * Series)) :
  Forall (fun c => In c (columns df)) sel ->
  getitem_list df (map fst sel) = Ok {| index := index df; columns := sel |}.
Proof.
  intros H. unfold getitem_list. rewrite absent_nil, flat_map_labelled; trivial.
  induction H as [|c sel Hc _ IH]; simpl; constructor; [|exact IH].
  unfold names. now apply in_map.
Qed.

End Projection.

(** C6: on a frame whose labels are unique, as the specification requires
    of a Table, keeping the columns [[c2; c1]] gives a frame with exactly
    the columns [c2] and [c1], in the order of the selection, with the
    index and the data of both columns unchanged. *)
Theorem keep_columns_selection_order (df : DataFrame) (c1 c2 : string) (s1 s2 : Series) :
  NoDup (names df) ->
  In (c1, s1) (columns df) ->
  In (c2, s2) (columns df) ->
  keep_columns df [c2; c1] =
  Ok {| index := index df; columns := [(c2, s2); (c1, s1)] |}.
Proof.
  intros N H1 H2. unfold keep_columns.
  apply (getitem_list_selection df N [(c2, s2); (c1, s1)]).
  repeat constructor; assumption.
Qed.

Lemma keep_columns_selection_order_witness :
  keep_columns Examples.people ["id"; "User Name"] =
  Ok {| index := index Examples.people;
        columns := [("id", Int64 [1%Z; 2%Z; 2%Z; 3%Z]);
                    ("User Name", Object [PyStr "ann"; PyStr "bob"; PyStr "bob"; PyFloat nan])] |}.
Proof.
  apply keep_columns_selection_order.
  - decide_labels.
  - simpl; tauto.
  - simpl; tauto.
Defined.

(** ** The cleaning options *)

(** Unfolds the statements of a script down to functions on the world. *)
Ltac run_script :=
  repeat progress
    (unfold mbind, mret, script_bind, script_ret, result_bind, result_ret,
       multiselect, selectbox, radio, checkbox, button, widget, show, lift,
       get_session, set_session, Py.bind in *; simpl in * ).

Lemma apply_cleaning_Permutation (fn : string) (w : file_widgets)
    (opts opts' : list string) (df : DataFrame) :
  opts ≡ₚ opts' -> apply_cleaning fn w opts df = apply_cleaning fn w opts' df.
Proof.
  intros P. unfold apply_cleaning.
  rewrite (contains_Permutation opts opts' "Remove Duplicates" P).
  rewrite (contains_Permutation opts opts' "Fill Missing Values" P).
  rewrite (contains_Permutation opts opts' "Standardize Column Names" P).
  rewrite (contains_Permutation opts opts' "Remove Columns" P).
  reflexivity.
Qed.

(** The frame the cleaning block returns is the one the specification's
    canonical-order application returns, provided the widget that asks
    for the columns to remove can be created. *)
Lemma apply_cleaning_result (fn : string) (w : file_widgets) (opts : list string)
    (df : DataFrame) (w0 : world) :
  contains (rendered w0) ("remove_" ++ fn) = false ->
  snd (apply_cleaning fn w opts df w0) =
  Spec.clean (fun o => contains opts (Spec.label o)) (columns_to_remove w) df.
Proof.
  intros Hk.
  unfold apply_cleaning, Spec.clean, Spec.canonical_order, Spec.apply_operation.
  simpl fold_left. unfold Spec.label.
  destruct (contains opts "Remove Duplicates");
  destruct (contains opts "Fill Missing Values");
  destruct (contains opts "Standardize Column Names");
  destruct (contains opts "Remove Columns"); run_script.
  all: repeat match goal with
       | |- context [fill_missing_values ?d] =>
           destruct (fill_missing_values d); simpl
       | |- context [standardize_column_names ?d] =>
           destruct (standardize_column_names d); simpl
       end; try reflexivity.
  all: try (run_script; rewrite Hk; simpl).
  all: repeat match goal with
       | |- context [drop_columns ?d ?r] => destruct (drop_columns d r); simpl
       end; reflexivity.
Qed.

(** C3: the cleaning block gives the same result (frame or exception,
    messages and session state) for any permutation of the selected
    options, and the frame it returns is the one obtained by applying the
    selected operations in the order Remove Duplicates, Fill Missing
    Values, Standardize Column Names, Remove Columns, an operation that is
    not selected being a no-op. *)
Theorem cleaning_canonical_order (fn : string) (w : file_widgets)
    (opts opts' : list string) (df : DataFrame) (w0 : world) :
  opts ≡ₚ opts' ->
  contains (rendered w0) ("remove_" ++ fn) = false ->
  apply_cleaning fn w opts df w0 = apply_cleaning fn w opts' df w0 /\
  snd (apply_cleaning fn w opts df w0) =
    Spec.clean (fun o => contains opts (Spec.label o)) (columns_to_remove w) df.
Proof.
  intros P Hk. split.
  - now rewrite (apply_cleaning_Permutation fn w opts opts' df P).
  - now apply apply_cleaning_result.
Qed.

Lemma cleaning_canonical_order_witness :
  apply_cleaning "people.csv" Examples.widgets
      ["Fill Missing Values"; "Remove Duplicates"] Examples.people Examples.fresh =
  apply_cleaning "people.csv" Examples.widgets
      ["Remove Duplicates"; "Fill Missing Values"] Examples.people Examples.fresh /\
  snd (apply_cleaning "people.csv" Examples.widgets
         ["Fill Missing Values"; "Remove Duplicates"] Examples.people Examples.fresh) =
    Spec.clean
      (fun o => contains ["Fill Missing Values"; "Remove Duplicates"] (Spec.label o))
      (columns_to_remove Examples.widgets) Examples.people.
Proof.
  apply cleaning_canonical_order; [apply perm_swap | reflexivity].
Defined.

(** ** Remove Duplicates *)

Section Masks.

Context {A B C : Type}.

Lemma take_mask_nil_r (m : list bool) : take_mask m (@nil A) = [].
Proof. destruct m as [|[] m]; reflexivity. Qed.

Lemma take_mask_map (f : A -> B) (m : list bool) (l : list A) :
  take_mask m (map f l) = map f (take_mask m l).
Proof.
  revert l. induction m as [|b m IH]; intros [|x l]; simpl; try reflexivity.
  destruct b; simpl; now rewrite IH.
Qed.

Lemma take_mask_zip_with (f : A -> B -> C) (m : list bool) (l : list A) (k : list B) :
  take_mask m (zip_with f l k) = zip_with f (take_mask m l) (take_mask m k).
Proof.
  revert l k. induction m as [|b m IH]; intros [|x l] [|y k]; simpl; try reflexivity.
  - destruct b; [reflexivity|]. now destruct (take_mask m l).
  - destruct b; simpl; now rewrite IH.
Qed.

Lemma take_mask_repeat (x : A) (m : list bool) (l : list B) :
  take_mask m (repeat x (length l)) = repeat x (length (take_mask m l)).
Proof.
  revert l. induction m as [|b m IH]; intros [|y l]; simpl; try reflexivity.
  destruct b; simpl; now rewrite IH.
Qed.


Lemma take_mask_all (n : nat) (l : list A) :
  length l <= n -> take_mask (repeat true n) l = l.
Proof.
  revert l. induction n as [|n IH]; intros [|x l] H; simpl in *; try reflexivity; [lia|].
  rewrite IH; [reflexivity | lia].
Qed.

End Masks.

Lemma values_series_mask (m : list bool) (s : Series) :
  values (series_mask m s) = take_mask m (values s).
Proof. destruct s; simpl; now rewrite take_mask_map. Qed.

Lemma zip_rows_mask (m : list bool) (cols : list (list scalar)) (idx : list Z) :
  zip_rows (map (take_mask m) cols) (length (take_mask m idx)) =
  take_mask m (zip_rows cols (length idx)).
Proof.
  induction cols as [|c cols IH]; simpl.
  - now rewrite take_mask_repeat.
  - now rewrite IH, take_mask_zip_with.
Qed.

Lemma zip_rows_0 (cols : list (list scalar)) : zip_rows cols 0 = [].
Proof.
  induction cols as [|c cols IH]; simpl; [reflexivity|].
  rewrite IH. now destruct c.
Qed.

(** The rows of a masked frame are the masked rows of the frame. *)
Lemma rows_getitem_mask (df : DataFrame) (m : list bool) :
  rows (getitem_mask df m) = take_mask m (rows df).
Proof.
  unfold rows, getitem_mask; simpl. rewrite <- zip_rows_mask. f_equal.
  rewrite !map_map. apply map_ext. intros c. simpl. apply values_series_mask.
Qed.

Lemma duplicated_from_length (seen rs : list (list scalar)) :
  length (duplicated_from seen rs) = length rs.
Proof. revert seen. induction rs as [|r rs IH]; intros seen; simpl; [reflexivity | now rewrite IH]. Qed.

Lemma existsb_incl (p : list scalar -> bool) (l l' : list (list scalar)) :
  (forall r, In r l -> In r l') -> existsb p l' = false -> existsb p l = false.
Proof.
  intros Hi H. destruct (existsb p l) eqn:E; [|reflexivity].
  apply existsb_exists in E as (r & Hr & Hp).
  rewrite <- H. symmetry. apply existsb_exists. exists r. auto.
Qed.

(** Among the rows that [duplicated] keeps none is marked again, even
    against fewer earlier rows. *)
Lemma duplicated_from_kept (seen seen' rs : list (list scalar)) :
  (forall r, In r seen' -> In r seen) ->
  duplicated_from seen' (take_mask (map negb (duplicated_from seen rs)) rs) =
  repeat false (length (take_mask (map negb (duplicated_from seen rs)) rs)).
Proof.
  revert seen seen'. induction rs as [|r rs IH]; intros seen seen' Hi; simpl; [reflexivity|].
  destruct (existsb (row_eqb r) seen) eqn:E; simpl.
  - apply IH. intros r' Hr'. right. now apply Hi.
  - rewrite (existsb_incl _ seen' seen Hi E). f_equal.
    apply IH. intros r' [->|Hr']; [now left | right; now apply Hi].
Qed.

(** The kept rows are the first occurrences, in their original order. *)
Lemma take_mask_first_occurrences (seen rs : list (list scalar)) :
  take_mask (map negb (duplicated_from seen rs)) rs = Spec.first_occurrences seen rs.
Proof.
  revert seen. induction rs as [|r rs IH]; intros seen; simpl; [reflexivity|].
  destruct (existsb (row_eqb r) seen); simpl; now rewrite IH.
Qed.

Lemma series_mask_all (n : nat) (s : Series) :
  len s <= n -> series_mask (repeat true n) s = s.
Proof.
  unfold len. destruct s; simpl; rewrite length_map; intros H; now rewrite take_mask_all.
Qed.

Lemma len_series_mask (m : list bool) (s : Series) :
  len (series_mask m s) = length (take_mask m (values s)).
Proof. unfold len. now rewrite values_series_mask. Qed.


(** What Remove Duplicates does to the rows of a frame that has a column:
    a row equal to an earlier row in every column (missing equal to
    missing) is dropped, the first occurrence is kept, and the kept rows
    stay in their order. *)
Lemma drop_duplicates_rows (df : DataFrame) :
  columns df <> [] ->
  rows (drop_duplicates df) = Spec.first_occurrences [] (rows df).
Proof.
  intros Hc. unfold drop_duplicates. destruct (empty df) eqn:E.
  - unfold empty in E. unfold rows.
    destruct (index df) as [|i idx]; simpl.
    + now rewrite zip_rows_0.
    + destruct (columns df); [contradiction | discriminate].
  - rewrite rows_getitem_mask. apply take_mask_first_occurrences.
Qed.

(** ** Fill Missing Values *)

Lemma map_update_other (k : string) (f : Series -> Series) (l : list (string * Series)) :
  ~ In k (map fst l) ->
  map (fun c => if String.eqb (fst c) k then (fst c, f (snd c)) else c) l = l.
Proof.
  induction l as [|a l IH]; simpl; intros H; [reflexivity|].
  destruct (String.eqb_spec (fst a) k) as [E|E]; [tauto|].
  rewrite IH; tauto.
Qed.

Lemma NoDup_labels_split (P L : list (string * Series)) (c : string * Series) :
  NoDup (map fst (P ++ c :: L)) ->
  ~ In (fst c) (map fst P) /\ ~ In (fst c) (map fst L).
Proof.
  rewrite map_app. simpl. intros N.
  apply NoDup_app in N as (_ & Hd & N). apply NoDup_cons in N as [Hc _].
  rewrite <- !list_elem_of_In. split; [|exact Hc].
  intros Hp. apply (Hd _ Hp). left.
Qed.

(** With unique labels, an update by label changes one column. *)
Lemma update_labelled_split (idx : list Z) (P L : list (string * Series))
    (c : string * Series) (f : Series -> Series) :
  NoDup (map fst (P ++ c :: L)) ->
  update_labelled (fst c) f (mkDF idx (P ++ c :: L)) =
  mkDF idx (P ++ (fst c, f (snd c)) :: L).
Proof.
  intros N. apply NoDup_labels_split in N as [HP HL].
  unfold update_labelled; simpl. f_equal.
  rewrite map_app. simpl. rewrite String.eqb_refl.
  now rewrite !map_update_other.
Qed.

Lemma labels_snoc (P L : list (string * Series)) (c : string * Series) (s : Series) :
  map fst ((P ++ [(fst c, s)]) ++ L) = map fst (P ++ c :: L).
Proof. rewrite <- app_assoc. rewrite !map_app. reflexivity. Qed.

Lemma column_means_numeric (cols : list (string * Series)) :
  Forall (fun c => is_numeric (snd c) = true) cols ->
  column_means cols = Ok (map (fun c => (fst c, numeric_mean (snd c))) cols).
Proof.
  induction 1 as [|c cols Hc _ IH]; simpl; [reflexivity|].
  rewrite IH. destruct c as [k [v|v|v]]; simpl in *; try reflexivity; discriminate.
Qed.

(** Filling a frame with one value per column fills each column with its
    own value. *)
Lemma fillna_columnwise (idx : list Z) (m : string * Series -> float)
    (P L : list (string * Series)) :
  NoDup (map fst (P ++ L)) ->
  fillna (mkDF idx (P ++ L)) (map (fun c => (fst c, m c)) L) =
  mkDF idx (P ++ map (fun c => (fst c, series_fillna (m c) (snd c))) L).
Proof.
  unfold fillna. revert P. induction L as [|c L IH]; intros P N; simpl; [reflexivity|].
  rewrite update_labelled_split by assumption.
  change (P ++ (fst c, series_fillna (m c) (snd c)) :: L)%list
    with (P ++ [(fst c, series_fillna (m c) (snd c))] ++ L)%list.
  rewrite app_assoc, IH by now rewrite labels_snoc.
  now rewrite <- app_assoc.
Qed.

Lemma NoDup_filter_labels (p : string * Series -> bool) (cols : list (string * Series)) :
  NoDup (map fst cols) -> NoDup (map fst (List.filter p cols)).
Proof.
  induction cols as [|c cols IH]; simpl; intros N; [exact N|].
  apply NoDup_cons in N as [Hc N]. destruct (p c); simpl; [|now apply IH].
  apply NoDup_cons. split; [|now apply IH].
  rewrite list_elem_of_In in *. intros H. apply Hc.
  apply in_map_iff in H as (c' & E & Hc'). apply filter_In in Hc' as [Hc' _].
  rewrite <- E. now apply in_map.
Qed.

Lemma zip_diag (l : list string) : zip l l = map (fun k => (k, k)) l.
Proof. induction l as [|k l IH]; simpl; [reflexivity | now rewrite IH]. Qed.

Section Assign.

(** The frame on the right of [df[keys] = value], and the data it holds
    for each numeric column of the frame on the left. *)
Variable value : DataFrame.
Variable data : string * Series -> Series.

Let assign (d : DataFrame) (kk : string * string) : DataFrame :=
  match getitem value (snd kk) with
  | Some s => setitem d (fst kk) s
  | None => d
  end.

(** Assigning to the numeric columns of a frame with unique labels
    replaces the data of each of them and leaves the other columns, and
    the order of all columns, as they were. *)
Lemma assign_columnwise (idx : list Z) (P L : list (string * Series)) :
  NoDup (map fst (P ++ L)) ->
  (forall c, In c L -> is_numeric (snd c) = true ->
             getitem value (fst c) = Some (data c)) ->
  fold_left assign
    (map (fun c => (fst c, fst c)) (List.filter (fun c => is_numeric (snd c)) L))
    (mkDF idx (P ++ L)) =
  mkDF idx (P ++ map (fun c => if is_numeric (snd c) then (fst c, data c) else c) L).
Proof.
  revert P. induction L as [|c L IH]; intros P N Hv; simpl; [reflexivity|].
  destruct (is_numeric (snd c)) eqn:E; simpl.
  - unfold assign at 2; simpl. rewrite (Hv c) by (simpl; auto).
    unfold setitem.
    assert (Hin : contains (names (mkDF idx (P ++ c :: L))) (fst c) = true).
    { apply contains_In. unfold names; simpl. rewrite map_app, in_app_iff. right. now left. }
    rewrite Hin, update_labelled_split by assumption.
    change (P ++ (fst c, data c) :: L)%list with (P ++ [(fst c, data c)] ++ L)%list.
    rewrite app_assoc, IH.
    + now rewrite <- app_assoc.
    + now rewrite labels_snoc.
    + intros c' Hc'. apply Hv. now right.
  - change (P ++ c :: L)%list with (P ++ [c] ++ L)%list.
    rewrite app_assoc, IH.
    + now rewrite <- app_assoc.
    + now rewrite <- app_assoc.
    + intros c' Hc'. apply Hv. now right.
Qed.

End Assign.

(** With unique labels, lines 126-127 never fail and act on each column
    separately. *)
Lemma fill_missing_values_columnwise (df : DataFrame) :
  NoDup (names df) ->
  fill_missing_values df =
  Ok {| index := index df;
        columns := map (fun c => (fst c, Spec.fill_column (snd c))) (columns df) |}.
Proof.
  intros N. destruct df as [idx cols]. unfold names in N. simpl in N.
  set (num := List.filter (fun c => is_numeric (snd c)) cols).
  set (fill := fun c : string * Series =>
                 (fst c, series_fillna (numeric_mean (snd c)) (snd c))).
  assert (Nnum : NoDup (map fst num)) by now apply NoDup_filter_labels.
  assert (Hsel : getitem_list (mkDF idx cols) (map fst num) = Ok (mkDF idx num)).
  { apply (getitem_list_selection (mkDF idx cols) N num).
    apply List.Forall_forall. intros c Hc. now apply filter_In in Hc as [Hc _]. }
  assert (Hmean : mean (mkDF idx num) = Ok (map (fun c => (fst c, numeric_mean (snd c))) num)).
  { apply column_means_numeric. apply List.Forall_forall.
    intros c Hc. now apply filter_In in Hc as [_ Hc]. }
  assert (Hfill : fillna (mkDF idx num) (map (fun c => (fst c, numeric_mean (snd c))) num)
                  = mkDF idx (map fill num)).
  { apply (fillna_columnwise idx (fun c => numeric_mean (snd c)) [] num). exact Nnum. }
  assert (Hnames : map fst (map fill num) = map fst num).
  { rewrite map_map. reflexivity. }
  unfold fill_missing_values, select_dtypes_number, names; simpl. fold num.
  rewrite Hsel; simpl. unfold mbind, result_bind; simpl.
  rewrite Hmean; simpl. rewrite Hfill.
  unfold setitem_list, names; simpl.
  rewrite Hnames, !length_map, Nat.eqb_refl, zip_diag, map_map. f_equal.
  pose proof (assign_columnwise (mkDF idx (map fill num)) (fun c => snd (fill c))
                idx [] cols N) as Ha.
  etransitivity; [apply Ha|].
  - intros c Hc E.
    assert (Hin : In (fill c) (columns (mkDF idx (map fill num)))).
    { simpl. apply in_map. apply filter_In. auto. }
    apply (getitem_unique (mkDF idx (map fill num))) in Hin; [exact Hin|].
    unfold names; simpl. now rewrite Hnames.
  - simpl. f_equal. apply map_ext. intros [k [v|v|v]]; reflexivity.
Qed.

(** The recursion of the pairwise sum never runs out of fuel: any fuel
    from the length of the array on gives the same sum. *)
Lemma pairwise_sum_rec_fuel (f f' : nat) (a : list float) :
  length a <= f -> length a <= f' ->
  pairwise_sum_rec f a = pairwise_sum_rec f' a.
Proof.
  revert f' a. induction f as [|f IH]; intros f' a Hf Hf'.
  - destruct a; [|simpl in Hf; lia]. now destruct f'.
  - destruct f' as [|f'].
    + destruct a; [reflexivity | simpl in Hf'; lia].
    + cbn [pairwise_sum_rec].
      destruct (length a <? 8)%nat eqn:E8; [reflexivity|].
      destruct (length a <=? 128)%nat eqn:E128; [reflexivity|].
      apply Nat.leb_gt in E128.
      assert (Hn2 : (0 < length a / 2 - (length a / 2) mod 8 < length a)%nat).
      { pose proof (Nat.mod_upper_bound (length a / 2) 8 ltac:(lia)).
        pose proof (Nat.div_mod_eq (length a) 2).
        pose proof (Nat.mod_upper_bound (length a) 2 ltac:(lia)).
        lia. }
      f_equal; apply IH; rewrite ?length_take, ?length_drop; lia.
Qed.

(** Fewer than 8 cells are added from the left. *)
Lemma np_sum_short (a : list float) :
  length a < 8 -> np_sum a = (0 + fsum a)%float.
Proof.
  intros H. unfold np_sum, pairwise_sum.
  destruct (length a) as [|n] eqn:E; [now destruct a|].
  cbn [pairwise_sum_rec]. rewrite E.
  apply Nat.ltb_lt in H. now rewrite H.
Qed.



(** With no missing cell the mean is the sum of the cells over their
    number. *)
Lemma nanmean_present (v : list float) :
  forallb (fun x => negb (is_nan x)) v = true -> v <> [] ->
  nanmean v = (np_sum v / float_of_Z (Z.of_nat (length v)))%float.
Proof.
  intros H Hv. unfold nanmean.
  assert (Hf : List.filter (fun x => negb (is_nan x)) v = v).
  { clear Hv. induction v as [|x v IH]; simpl in *; [reflexivity|].
    apply andb_true_iff in H as [Hx H]. rewrite Hx. now rewrite IH. }
  assert (Hm : map (fun x => if is_nan x then 0%float else x) v = v).
  { clear Hv Hf. induction v as [|x v IH]; simpl in *; [reflexivity|].
    apply andb_true_iff in H as [Hx H]. apply negb_true_iff in Hx.
    rewrite Hx. now rewrite IH. }
  rewrite Hf, Hm. destruct v; [contradiction | reflexivity].
Qed.

(** ** Floats: the missing marker *)

Lemma SFeqb_refl_not_nan (x : spec_float) : SFeqb x x = false -> x = S754_nan.
Proof.
  unfold SFeqb. destruct x as [s|s| |s m e]; simpl; try reflexivity.
  - discriminate.
  - destruct s; discriminate.
  - destruct s; rewrite Z.compare_refl, Pos.compare_cont_refl; discriminate.
Qed.

(** NaN is the only float that is missing. *)
Lemma is_nan_eq (x : float) : is_nan x = true -> x = nan.
Proof.
  unfold is_nan. intros H. apply negb_true_iff in H.
  rewrite FloatAxioms.eqb_spec in H. apply SFeqb_refl_not_nan in H.
  rewrite <- (SF2Prim_Prim2SF x), H. reflexivity.
Qed.

Lemma nanmean_all_missing (v : list float) :
  forallb is_nan v = true -> nanmean v = nan.
Proof.
  intros H. unfold nanmean.
  assert (Hf : List.filter (fun x => negb (is_nan x)) v = []).
  { induction v as [|x v IH]; simpl in *; [reflexivity|].
    apply andb_true_iff in H as [Hx H]. rewrite Hx. simpl. now apply IH. }
  now rewrite Hf.
Qed.

Lemma fill_all_missing (v : list float) :
  forallb is_nan v = true ->
  map (fun x => if is_nan x then nanmean v else x) v = v.
Proof.
  intros H. rewrite (nanmean_all_missing v H).
  induction v as [|x v IH]; simpl in *; [reflexivity|].
  apply andb_true_iff in H as [Hx H]. rewrite Hx, (is_nan_eq x Hx). simpl.
  now rewrite IH.
Qed.

(** C10: on a frame with unique labels, a float column whose cells are
    all missing is left as it is by Fill Missing Values: the mean of such
    a column is itself the missing marker, so every cell stays missing
    and no other value (such as zero) is put in. *)
Theorem fill_missing_values_all_missing (df : DataFrame) (i : nat) (k : string)
    (v : list float) :
  NoDup (names df) ->
  nth_error (columns df) i = Some (k, Float64 v) ->
  forallb is_nan v = true ->
  nanmean v = nan /\
  exists df',
    fill_missing_values df = Ok df' /\
    nth_error (columns df') i = Some (k, Float64 v).
Proof.
  intros N H Hv. split; [now apply nanmean_all_missing|].
  eexists. split; [now apply fill_missing_values_columnwise|].
  simpl. apply (map_nth_error (fun c => (fst c, Spec.fill_column (snd c)))) in H.
  rewrite H. simpl. now rewrite fill_all_missing.
Qed.

Lemma fill_missing_values_all_missing_witness :
  nanmean [nan; nan] = nan /\
  exists df',
    fill_missing_values Examples.sparse = Ok df' /\
    nth_error (columns df') 0 = Some ("score", Float64 [nan; nan]).
Proof.
  apply (fill_missing_values_all_missing Examples.sparse 0 "score" [nan; nan]).
  - decide_labels.
  - reflexivity.
  - reflexivity.
Defined.

(** ** Visualization *)

(** C2, as amended: when the visualizations are on and the chart type is
    Correlation Matrix, a frame with no numeric column gets the warning
    that stands for NoNumericColumns and no matrix is computed; a frame
    with one numeric column or more gets no warning: [df.corr()] is
    called on it, and its matrix is drawn as a heat map, or the
    exception it raises stops the script. *)
Theorem visualize_correlation_matrix (fn : string) (w : file_widgets)
    (df : DataFrame) (w0 : world) :
  show_visualizations w = true ->
  chart_type w = "Correlation Matrix" ->
  contains (rendered w0) ("viz_" ++ fn) = false ->
  contains (rendered w0) ("chart_" ++ fn) = false ->
  match names (select_dtypes_number df) with
  | [] =>
      snd (visualize fn w df w0) = Ok tt /\
      shown (fst (visualize fn w df w0)) =
        (shown w0 ++ [St_warning "No numeric columns found for visualization."])%list
  | _ :: _ =>
      match corr_raises w df with
      | None =>
          snd (visualize fn w df w0) = Ok tt /\
          shown (fst (visualize fn w df w0)) =
            (shown w0 ++ [St_chart (Heatmap_of_corr df)])%list
      | Some e =>
          snd (visualize fn w df w0) = Raise e /\
          shown (fst (visualize fn w df w0)) = shown w0
      end
  end.
Proof.
  intros Hv Hc Hk1 Hk2. unfold visualize. rewrite Hv, Hc. run_script.
  rewrite Hk1. simpl.
  destruct (names (select_dtypes_number df)) as [|k ks]; simpl; [split; reflexivity|].
  rewrite Hk2. simpl. destruct (corr_raises w df); simpl; split; reflexivity.
Qed.

Lemma visualize_correlation_matrix_witness :
  match names (select_dtypes_number Examples.sparse) with
  | [] =>
      snd (visualize "t.csv" Examples.widgets Examples.sparse Examples.fresh) = Ok tt /\
      shown (fst (visualize "t.csv" Examples.widgets Examples.sparse Examples.fresh)) =
        (shown Examples.fresh ++
         [St_warning "No numeric columns found for visualization."])%list
  | _ :: _ =>
      match corr_raises Examples.widgets Examples.sparse with
      | None =>
          snd (visualize "t.csv" Examples.widgets Examples.sparse Examples.fresh) = Ok tt /\
          shown (fst (visualize "t.csv" Examples.widgets Examples.sparse Examples.fresh)) =
            (shown Examples.fresh ++ [St_chart (Heatmap_of_corr Examples.sparse)])%list
      | Some e =>
          snd (visualize "t.csv" Examples.widgets Examples.sparse Examples.fresh) = Raise e /\
          shown (fst (visualize "t.csv" Examples.widgets Examples.sparse Examples.fresh)) =
            shown Examples.fresh
      end
  end.
Proof.
  apply visualize_correlation_matrix; reflexivity.
Defined.

(** C2, the claim as written fails: on a frame with exactly one numeric
    column, on which [df.corr()] does not raise, the correlation matrix
    is computed and drawn, and no warning is shown. *)
Lemma correlation_with_one_numeric_column :
  names (select_dtypes_number Examples.one_numeric) = ["n"] /\
  chart_type Examples.widgets = "Correlation Matrix" /\
  corr_raises Examples.widgets Examples.one_numeric = None /\
  snd (visualize "t.csv" Examples.widgets Examples.one_numeric Examples.fresh) = Ok tt /\
  shown (fst (visualize "t.csv" Examples.widgets Examples.one_numeric Examples.fresh)) =
    [St_chart (Heatmap_of_corr Examples.one_numeric)].
Proof. repeat split. Qed.

(** ** The sidebar button and the session state *)

Import Invariant.

Lemma keeps_ret {A} (a : A) : keeps (mret a).
Proof. intros w H. exact H. Qed.

Lemma keeps_bind {A B} (m : script A) (k : A -> script B) :
  keeps m -> (forall a, keeps (k a)) -> keeps (m ≫= k).
Proof.
  intros Hm Hk w H. unfold mbind, script_bind.
  specialize (Hm w H). destruct (m w) as [w' [a|e]]; simpl in *.
  - now apply Hk.
  - exact Hm.
Qed.

Lemma keeps_lift {A} (r : result A) : keeps (lift r).
Proof. intros w H. exact H. Qed.

Lemma keeps_show (u : ui) : keeps (show u).
Proof. intros w H. exact H. Qed.

Lemma keeps_get_session : keeps get_session.
Proof. intros w H. exact H. Qed.

Lemma keeps_set_session (key : string) (v : ssval) :
  key <> "df" -> keeps (set_session key v).
Proof.
  intros Hk w H. unfold no_df, set_session in *; simpl.
  now rewrite lookup_insert_ne.
Qed.

Lemma keeps_widget (key : string) (v : wval) : key <> "df" -> keeps (widget key v).
Proof.
  intros Hk w H. unfold no_df, widget in *.
  destruct (contains (rendered w) key); simpl; [exact H|].
  now rewrite lookup_insert_ne.
Qed.

(** The keys of the script are literal, or a literal prefix before the
    file name; none of them is ["df"]. *)
Ltac key_neq := let E := fresh in intros E; cbv [String.append] in E; congruence.

(** Goes through a script statement by statement. *)
Ltac keeps_steps :=
  repeat first
    [ apply keeps_ret
    | apply keeps_show
    | apply keeps_lift
    | apply keeps_get_session
    | apply keeps_set_session; key_neq
    | apply keeps_widget; key_neq
    | apply keeps_bind; [|intros ?]
    | match goal with
      | |- keeps (if ?b then _ else _) => destruct b
      | |- keeps (match ?x with _ => _ end) => destruct x
      end ].

Lemma keeps_sidebar_convert (inp : run_input) : keeps (sidebar_convert inp).
Proof.
  intros w H. unfold sidebar_convert.
  destruct (sidebar_convert_pressed inp); [|exact H].
  unfold mbind, script_bind, get_session; simpl.
  unfold no_df in H. rewrite H. exact H.
Qed.

Lemma keeps_init_session (key : string) (v : ssval) :
  key <> "df" -> keeps (init_session key v).
Proof.
  intros Hk. unfold init_session. apply keeps_bind; [apply keeps_get_session|].
  intros ss. destruct (ss !! key); [apply keeps_ret | now apply keeps_set_session].
Qed.

Lemma keeps_load (file : UploadedFile) : keeps (load file).
Proof. unfold load. keeps_steps. Qed.

Lemma keeps_apply_cleaning (fn : string) (w : file_widgets) (opts : list string)
    (df : DataFrame) :
  keeps (apply_cleaning fn w opts df).
Proof. unfold apply_cleaning, multiselect. keeps_steps. Qed.

Lemma keeps_save_cleaned (fn : string) (df : DataFrame) : keeps (save_cleaned fn df).
Proof. unfold save_cleaned. keeps_steps. Qed.

Lemma keeps_visualize (fn : string) (w : file_widgets) (df : DataFrame) :
  keeps (visualize fn w df).
Proof. unfold visualize, checkbox, selectbox. keeps_steps. Qed.

Lemma keeps_convert (fn ext : string) (w : file_widgets) (df : DataFrame) :
  keeps (convert fn ext w df).
Proof. unfold convert, radio, button. keeps_steps. Qed.

Lemma keeps_process_file (fw : UploadedFile * file_widgets) : keeps (process_file fw).
Proof.
  unfold process_file, multiselect.
  apply keeps_bind; [apply keeps_load|]. intros [[ext df]|]; [|apply keeps_ret].
  apply keeps_bind; [keeps_steps|]. intros opts.
  apply keeps_bind; [apply keeps_apply_cleaning|]. intros df'.
  apply keeps_bind; [apply keeps_save_cleaned|]. intros _.
  apply keeps_bind; [keeps_steps|]. intros keep.
  apply keeps_bind; [apply keeps_lift|]. intros df''.
  apply keeps_bind; [apply keeps_visualize|]. intros _.
  apply keeps_convert.
Qed.

Lemma keeps_for_each {A} (body : A -> script unit) (l : list A) :
  (forall x, keeps (body x)) -> keeps (for_each body l).
Proof.
  intros Hb. induction l as [|x l IH]; simpl; [apply keeps_ret|].
  apply keeps_bind; [apply Hb | intros _; exact IH].
Qed.

Lemma keeps_balloons : keeps balloons.
Proof. unfold balloons. keeps_steps. Qed.

Lemma keeps_main (inp : run_input) : keeps (main inp).
Proof.
  unfold main.
  apply keeps_bind; [apply keeps_sidebar_convert|]. intros _.
  apply keeps_bind; [apply keeps_init_session; key_neq|]. intros _.
  apply keeps_bind; [apply keeps_init_session; key_neq|]. intros _.
  destruct (uploaded_files inp); [apply keeps_show|].
  apply keeps_bind; [|intros _; apply keeps_balloons].
  apply keeps_for_each. apply keeps_process_file.
Qed.

(** No reachable session state has the key ["df"]. *)
Lemma reachable_no_df (ss : gmap string ssval) : reachable ss -> ss !! "df" = None.
Proof.
  induction 1 as [|inp ss _ IH]; [apply lookup_empty|].
  apply (keeps_main inp (mkWorld ss [] [])). exact IH.
Qed.

(** C9: in every session state the page can reach, the key ["df"] is
    absent, and pressing the sidebar button only shows the warning that
    no data is loaded: the state is unchanged, nothing is offered for
    download and nothing is raised. *)
Theorem sidebar_convert_no_data (ss : gmap string ssval) (inp : run_input)
    (r : list string) (s : list ui) :
  reachable ss ->
  sidebar_convert_pressed inp = true ->
  ss !! "df" = None /\
  sidebar_convert inp (mkWorld ss r s) =
    (mkWorld ss r (s ++ [St_warning "No data loaded to convert."]), Ok tt).
Proof.
  intros Hr Hp. pose proof (reachable_no_df ss Hr) as Hdf. split; [exact Hdf|].
  unfold sidebar_convert. rewrite Hp.
  unfold mbind, script_bind, get_session; simpl. rewrite Hdf. reflexivity.
Qed.

Lemma sidebar_convert_no_data_witness :
  session_state (fst (run Examples.upload ∅)) !! "df" = None /\
  sidebar_convert Examples.upload
    (mkWorld (session_state (fst (run Examples.upload ∅))) [] []) =
    (mkWorld (session_state (fst (run Examples.upload ∅))) []
             ([] ++ [St_warning "No data loaded to convert."]), Ok tt).
Proof.
  apply sidebar_convert_no_data.
  - apply reachable_run. apply reachable_new.
  - reflexivity.
Defined.

(** ** The name of the converted file *)

(** C7: the MIME type is the one of the target format, but the file name
    is not always the original name with its extension replaced.  Line 202
    and line 206 replace every occurrence of the lower-cased extension in
    the name: in "my.csv_export.csv" the extension is also replaced inside
    the name, and in "DATA.CSV" nothing is replaced.  "report.xlsx" is
    renamed as expected, and the last part is the same defect seen through
    a whole run of the script. *)
Theorem converted_file_name_examples (df : DataFrame) :
  converted "my.csv_export.csv" (file_ext_of "my.csv_export.csv") "Excel" df =
    Ok (To_excel df, "my.xlsx_export.xlsx", xlsx_mime) /\
  converted "DATA.CSV" (file_ext_of "DATA.CSV") "Excel" df =
    Ok (To_excel df, "DATA.CSV", xlsx_mime) /\
  converted "report.xlsx" (file_ext_of "report.xlsx") "CSV" df =
    Ok (To_csv df, "report.csv", "text/csv") /\
  shown (fst (run Examples.export_upload ∅)) =
    [St_download_button "Download my.csv_export.csv as Excel"
       (To_excel Examples.one_numeric) "my.xlsx_export.xlsx" xlsx_mime;
     St_success "my.csv_export.csv converted to Excel!";
     St_balloons].
Proof. repeat split. Qed.

(** ** The scenarios of the specification *)

Example standardize_scenario :
  map standardize_name ["User Name"; "AGE"] = ["user_name"; "age"].
Proof. reflexivity. Qed.

Example drop_duplicates_scenario :
  drop_duplicates
    (mkDF [0%Z; 1%Z; 2%Z]
          [("n", Int64 [1%Z; 1%Z; 2%Z]);
           ("s", Object [PyStr "a"; PyStr "a"; PyFloat nan])]) =
  mkDF [0%Z; 2%Z]
       [("n", Int64 [1%Z; 2%Z]); ("s", Object [PyStr "a"; PyFloat nan])].
Proof. reflexivity. Qed.

Example fill_missing_values_scenario :
  fill_missing_values Examples.people =
  Ok (mkDF [0%Z; 1%Z; 2%Z; 3%Z]
       [("User Name", Object [PyStr "ann"; PyStr "bob"; PyStr "bob"; PyFloat nan]);
        ("AGE", Float64 [30%float; 35.5%float; 35.5%float; 41%float]);
        ("id", Int64 [1%Z; 2%Z; 2%Z; 3%Z])]).
Proof. vm_compute. reflexivity. Qed.

(** * Further properties of the script *)

Import Facts.

(** ** The extension of a file name (line 92) *)

Lemma append_cons (c : ascii) (s t : string) : String c s ++ t = String c (s ++ t).
Proof. reflexivity. Qed.

Lemma append_empty_r (s : string) : s ++ "" = s.
Proof.
  induction s as [|c s IH]; [reflexivity|]. now rewrite append_cons, IH.
Qed.

Lemma substring_all (s : string) : substring 0 (String.length s) s = s.
Proof. induction s as [|c s IH]; simpl; [reflexivity | now rewrite IH]. Qed.

Lemma substring_split (n : nat) (s : string) :
  substring 0 n s ++ substring n (String.length s - n) s = s.
Proof.
  revert n. induction s as [|c s IH]; intros [|n]; simpl; try reflexivity.
  - now rewrite substring_all.
  - now rewrite append_cons, IH.
Qed.

(** X1: [os.path.splitext] cuts the name in two: the root followed by the
    extension is the name again, whatever the name. *)
Theorem splitext_partition (p : string) :
  fst (splitext p) ++ snd (splitext p) = p.
Proof.
  unfold splitext.
  destruct (rfind p "/" <? rfind p ".")%Z; simpl; [|apply append_empty_r].
  destruct (all_dots _); simpl; [apply append_empty_r|].
  unfold slice, slice_from. rewrite Z.sub_0_r. apply substring_split.
Qed.

Lemma length_append (a b : string) :
  String.length (a ++ b) = (String.length a + String.length b)%nat.
Proof.
  induction a as [|c a IH]; [reflexivity|]. rewrite append_cons. simpl. now rewrite IH.
Qed.

Lemma substring_prefix (a b : string) : substring 0 (String.length a) (a ++ b) = a.
Proof.
  induction a as [|c a IH]; [now destruct b|]. rewrite append_cons. simpl. now rewrite IH.
Qed.

Lemma substring_suffix (a b : string) :
  substring (String.length a) (String.length b) (a ++ b) = b.
Proof.
  induction a as [|c a IH]; [apply substring_all|]. rewrite append_cons. simpl. exact IH.
Qed.

Lemma rfind_from_append (c : ascii) (a b : string) (i last : Z) :
  rfind_from c (a ++ b) i last =
  rfind_from c b (i + Z.of_nat (String.length a)) (rfind_from c a i last).
Proof.
  revert i last. induction a as [|d a IH]; intros i last.
  - simpl. now rewrite Z.add_0_r.
  - rewrite append_cons. cbn [rfind_from String.length]. rewrite IH. f_equal. lia.
Qed.

Lemma rfind_from_absent (c : ascii) (s : string) (i last : Z) :
  has_char c s = false -> rfind_from c s i last = last.
Proof.
  revert i last. induction s as [|d s IH]; intros i last H; simpl in *; [reflexivity|].
  apply orb_false_iff in H as [Hd H]. rewrite Hd. now apply IH.
Qed.

Lemma lower_append (a b : string) : lower (a ++ b) = lower a ++ lower b.
Proof.
  induction a as [|c a IH]; [reflexivity|]. rewrite append_cons. simpl.
  now rewrite append_cons, IH.
Qed.

(** The root and the extension of a plain file name: the extension is the
    part from the last dot on. *)
Lemma splitext_plain (stem e : string) :
  has_char "/" (stem ++ "." ++ e) = false ->
  has_char "." e = false ->
  all_dots stem = false ->
  splitext (stem ++ "." ++ e) = (stem, "." ++ e).
Proof.
  intros Hsep Hdot Hstem. unfold splitext, rfind.
  rewrite (rfind_from_absent "/" _ 0 (-1) Hsep).
  rewrite rfind_from_append. change ("." ++ e) with (String "." e).
  cbn [rfind_from]. rewrite Ascii.eqb_refl, (rfind_from_absent "." e _ _ Hdot).
  rewrite Z.add_0_l.
  assert (Hlt : (-1 <? Z.of_nat (String.length stem))%Z = true) by (apply Z.ltb_lt; lia).
  rewrite Hlt. unfold slice, slice_from.
  replace (-1 + 1)%Z with 0%Z by lia. rewrite Z.sub_0_r, Nat2Z.id.
  rewrite substring_prefix, Hstem. f_equal.
  rewrite length_append.
  replace (String.length stem + String.length (String "." e) - String.length stem)%nat
    with (String.length (String "." e)) by lia.
  apply substring_suffix.
Qed.

(** X2: for a file name [stem.e] without a slash, whose stem is not made
    of dots only and whose last part [e] has no dot, the extension the
    script compares is the dot followed by [e] in lower case: the test of
    lines 93-95 does not depend on the case of the extension. *)
Theorem file_ext_of_plain (stem e : string) :
  has_char "/" (stem ++ "." ++ e) = false ->
  has_char "." e = false ->
  all_dots stem = false ->
  file_ext_of (stem ++ "." ++ e) = "." ++ lower e.
Proof.
  intros Hsep Hdot Hstem. unfold file_ext_of.
  rewrite (splitext_plain stem e Hsep Hdot Hstem). simpl.
  now rewrite lower_append.
Qed.

Lemma file_ext_of_plain_witness :
  file_ext_of ("Sales.2024" ++ "." ++ "CSV") = "." ++ lower "CSV".
Proof. apply file_ext_of_plain; reflexivity. Defined.

(** ** Files that cannot be loaded (lines 91-102) *)

(** X3: a file with an unsupported extension, or one its reader fails
    on, adds one error message and nothing else: no widget is created,
    the session state is as before, and the loop goes on with the files
    that follow. *)
Theorem unloadable_file_is_skipped (file : UploadedFile) (w : file_widgets)
    (rest : list (UploadedFile * file_widgets)) (w0 : world) (msg : ui) :
  (String.eqb (file_ext_of (name file)) ".csv" = false /\
   String.eqb (file_ext_of (name file)) ".xlsx" = false /\
   msg = St_error ("Unsupported file type: " ++ file_ext_of (name file))) \/
  (file_ext_of (name file) = ".csv" /\
   exists e, read_csv file = Raise e /\ msg = St_error_loading e) \/
  (file_ext_of (name file) = ".xlsx" /\
   exists e, read_excel file = Raise e /\ msg = St_error_loading e) ->
  for_each process_file ((file, w) :: rest) w0 =
  for_each process_file rest
    (mkWorld (session_state w0) (rendered w0) (shown w0 ++ [msg])).
Proof.
  intros H. cbn [for_each]. unfold process_file, load. cbn [fst snd].
  destruct H as [(H1 & H2 & ->) | [(H1 & e & H2 & ->) | (H1 & e & H2 & ->)]].
  - rewrite H1, H2. reflexivity.
  - rewrite H1, H2. reflexivity.
  - rewrite H1, H2. reflexivity.
Qed.

Lemma unloadable_file_is_skipped_witness :
  for_each process_file
    ((mkFile "notes.txt" (Ok Examples.people) (Ok Examples.people), Examples.widgets)
       :: uploaded_files Examples.upload) Examples.fresh =
  for_each process_file (uploaded_files Examples.upload)
    (mkWorld (session_state Examples.fresh) (rendered Examples.fresh)
       (shown Examples.fresh ++ [St_error ("Unsupported file type: " ++ ".txt")])).
Proof.
  apply (unloadable_file_is_skipped
           (mkFile "notes.txt" (Ok Examples.people) (Ok Examples.people))).
  left. repeat split.
Defined.

(** ** Remove Columns and the column selection (lines 138 and 152) *)

Lemma absent_In (df : DataFrame) (keys : list string) (k : string) :
  In k (absent df keys) <-> In k keys /\ ~ In k (names df).
Proof.
  unfold absent. rewrite filter_In, negb_true_iff, contains_false. reflexivity.
Qed.

Lemma absent_all (df : DataFrame) (keys : list string) :
  (forall k, In k keys -> ~ In k (names df)) -> absent df keys = keys.
Proof.
  unfold absent. induction keys as [|k keys IH]; intros H; simpl; [reflexivity|].
  assert (Hk : contains (names df) k = false) by (apply contains_false, H; now left).
  rewrite Hk. simpl. f_equal. apply IH. intros k' Hk'. apply H. now right.
Qed.

Lemma filter_sublist {A} (p : A -> bool) (l : list A) : sublist (List.filter p l) l.
Proof.
  induction l as [|x l IH]; simpl; [constructor|].
  destruct (p x); now constructor.
Qed.

(** X4: when every listed label names a column, Remove Columns succeeds:
    the index is kept, the columns of the result are exactly the columns
    whose label is not listed, with their data and in their order, and
    no listed label is left. *)
Theorem drop_columns_removes (df : DataFrame) (labels : list string) :
  (forall k, In k labels -> In k (names df)) ->
  exists df',
    drop_columns df labels = Ok df' /\
    index df' = index df /\
    sublist (columns df') (columns df) /\
    (forall c, In c (columns df') <-> In c (columns df) /\ ~ In (fst c) labels) /\
    (forall k, In k labels -> ~ In k (names df')).
Proof.
  intros H. unfold drop_columns.
  rewrite absent_nil by (apply List.Forall_forall; exact H).
  eexists. split; [reflexivity|]. cbn [index columns]. split; [reflexivity|].
  split; [apply filter_sublist|]. split.
  - intros c. rewrite filter_In, negb_true_iff, contains_false. reflexivity.
  - intros k Hk Hin. unfold names in Hin. cbn [columns] in Hin.
    apply in_map_iff in Hin as (c & <- & Hc).
    apply filter_In in Hc as [_ Hc]. apply negb_true_iff, contains_false in Hc.
    contradiction.
Qed.

Lemma drop_columns_removes_witness :
  exists df',
    drop_columns Examples.people ["id"; "AGE"] = Ok df' /\
    index df' = index Examples.people /\
    sublist (columns df') (columns Examples.people) /\
    (forall c, In c (columns df') <->
               In c (columns Examples.people) /\ ~ In (fst c) ["id"; "AGE"]) /\
    (forall k, In k ["id"; "AGE"] -> ~ In k (names df')).
Proof.
  apply drop_columns_removes. intros k Hk. simpl in *.
  destruct Hk as [<-|[<-|[]]]; tauto.
Defined.

(** X5: a label that names no column makes both Remove Columns and the
    column selection raise [KeyError]; the error lists the labels that
    are unknown, in the order they were given, and that label is one of
    them. *)
Theorem unknown_label_raises (df : DataFrame) (labels : list string) (k : string) :
  In k labels -> ~ In k (names df) ->
  drop_columns df labels = Raise (KeyError (absent df labels)) /\
  keep_columns df labels = Raise (KeyError (absent df labels)) /\
  In k (absent df labels).
Proof.
  intros Hk Hn.
  assert (Ha : In k (absent df labels)) by (apply absent_In; auto).
  unfold drop_columns, keep_columns, getitem_list.
  destruct (absent df labels) as [|a l]; [contradiction|]. auto.
Qed.

Lemma unknown_label_raises_witness :
  drop_columns Examples.people ["id"; "age"] =
    Raise (KeyError (absent Examples.people ["id"; "age"])) /\
  keep_columns Examples.people ["id"; "age"] =
    Raise (KeyError (absent Examples.people ["id"; "age"])) /\
  In "age" (absent Examples.people ["id"; "age"]).
Proof.
  apply unknown_label_raises.
  - simpl; tauto.
  - simpl. intros [H|[H|[H|[]]]]; discriminate H.
Defined.

(** X6: Remove Columns cannot be repeated: once it has removed a
    non-empty list of labels, removing the same labels from the result
    raises [KeyError] for all of them. *)
Theorem drop_columns_twice_raises (df df' : DataFrame) (labels : list string) :
  labels <> [] ->
  drop_columns df labels = Ok df' ->
  drop_columns df' labels = Raise (KeyError labels).
Proof.
  intros Hne H. unfold drop_columns in H.
  destruct (absent df labels) eqn:Ha; [|discriminate]. injection H as <-.
  unfold drop_columns. rewrite absent_all.
  - destruct labels; [contradiction | reflexivity].
  - intros k Hk Hin. unfold names in Hin. cbn [columns] in Hin.
    apply in_map_iff in Hin as (c & <- & Hc).
    apply filter_In in Hc as [_ Hc]. apply negb_true_iff, contains_false in Hc.
    contradiction.
Qed.

Lemma drop_columns_twice_raises_witness :
  drop_columns (mkDF [0%Z; 1%Z] [("s", Object [PyFloat nan; PyStr "x"])]) ["score"; "n"] =
  Raise (KeyError ["score"; "n"]).
Proof.
  apply (drop_columns_twice_raises Examples.sparse); [discriminate | reflexivity].
Defined.

Lemma labelled_In (df : DataFrame) (k : string) (c : string * Series) :
  In c (labelled df k) <-> In c (columns df) /\ fst c = k.
Proof. unfold labelled. rewrite filter_In, String.eqb_eq. reflexivity. Qed.

(** X7: with the default selection, all the labels of the frame in
    their order, the column selection returns the frame as it is (for a
    frame with unique labels). *)
Theorem keep_columns_default (df : DataFrame) :
  NoDup (names df) -> keep_columns df (names df) = Ok df.
Proof.
  intros N. unfold keep_columns, names.
  rewrite (getitem_list_selection df N (columns df)).
  - now destruct df.
  - apply List.Forall_forall. auto.
Qed.

Lemma keep_columns_default_witness :
  keep_columns Examples.people (names Examples.people) = Ok Examples.people.
Proof. apply keep_columns_default. decide_labels. Defined.

(** X8: whatever labels are selected, a selection that succeeds keeps
    the index, and every column of the result is a column of the frame,
    with its data, whose label was selected; every selected label is
    the label of a column of the result.  Equal column lengths are
    kept. *)
Theorem keep_columns_columns (df df' : DataFrame) (keys : list string) :
  keep_columns df keys = Ok df' ->
  index df' = index df /\
  (forall c, In c (columns df') <-> In c (columns df) /\ In (fst c) keys) /\
  (forall k, In k keys -> In k (names df')) /\
  (wf df -> wf df').
Proof.
  unfold keep_columns, getitem_list. intros H.
  destruct (absent df keys) eqn:Ha; [|discriminate]. injection H as <-.
  cbn [index columns].
  assert (Hc : forall c, In c (flat_map (labelled df) keys) <->
                         In c (columns df) /\ In (fst c) keys).
  { intros c. rewrite in_flat_map. split.
    - intros (k & Hk & Hin). apply labelled_In in Hin as [Hin <-]. auto.
    - intros [Hin Hk]. exists (fst c). split; [exact Hk|]. now apply labelled_In. }
  split; [reflexivity|]. split; [exact Hc|]. split.
  - intros k Hk.
    assert (Hin : In k (names df)).
    { destruct (contains (names df) k) eqn:E; [now apply contains_In|].
      assert (Hab : In k (absent df keys)) by (apply absent_In; split; [|apply contains_false]; auto).
      rewrite Ha in Hab. contradiction. }
    unfold names in *. cbn [columns].
    apply in_map_iff in Hin as (c & <- & Hin).
    apply in_map. apply Hc. auto.
  - unfold wf. cbn [index columns]. rewrite !List.Forall_forall.
    intros Hw c Hin. apply Hw. now apply Hc.
Qed.

Lemma keep_columns_columns_witness :
  index (mkDF (index Examples.people)
           [("id", Int64 [1%Z; 2%Z; 2%Z; 3%Z])]) = index Examples.people /\
  (forall c, In c (columns (mkDF (index Examples.people)
                             [("id", Int64 [1%Z; 2%Z; 2%Z; 3%Z])])) <->
             In c (columns Examples.people) /\ In (fst c) ["id"]) /\
  (forall k, In k ["id"] ->
             In k (names (mkDF (index Examples.people)
                            [("id", Int64 [1%Z; 2%Z; 2%Z; 3%Z])]))) /\
  (wf Examples.people ->
   wf (mkDF (index Examples.people) [("id", Int64 [1%Z; 2%Z; 2%Z; 3%Z])])).
Proof. apply (keep_columns_columns Examples.people). reflexivity. Defined.

(** ** Remove Duplicates (line 123) *)

Lemma forallb_negb_repeat (n : nat) : forallb negb (repeat false n) = true.
Proof. induction n as [|n IH]; simpl; [reflexivity | exact IH]. Qed.

(** X9: after Remove Duplicates no row of a frame that has a column is
    marked as the duplicate of an earlier row. *)
Theorem drop_duplicates_no_duplicate (df : DataFrame) :
  columns df <> [] ->
  forallb negb (duplicated (drop_duplicates df)) = true.
Proof.
  intros Hc. unfold drop_duplicates. destruct (empty df) eqn:E.
  - unfold empty in E. unfold duplicated, rows.
    destruct (index df); [now rewrite zip_rows_0|].
    destruct (columns df); [contradiction | discriminate].
  - unfold duplicated at 1. rewrite rows_getitem_mask. unfold duplicated.
    rewrite duplicated_from_kept by tauto. apply forallb_negb_repeat.
Qed.

Lemma drop_duplicates_no_duplicate_witness :
  forallb negb (duplicated (drop_duplicates Examples.people)) = true.
Proof. apply drop_duplicates_no_duplicate. discriminate. Defined.

Lemma take_mask_sublist {A} (m : list bool) (l : list A) : sublist (take_mask m l) l.
Proof.
  revert l. induction m as [|b m IH]; intros [|x l]; simpl;
    try apply sublist_nil_l.
  destruct b; constructor; apply IH.
Qed.

Lemma take_mask_length_eq {A B} (m : list bool) (l : list A) (k : list B) :
  length l = length k -> length (take_mask m l) = length (take_mask m k).
Proof.
  revert l k. induction m as [|b m IH]; intros [|x l] [|y k] H; simpl in *;
    try reflexivity; try discriminate.
  injection H as H. destruct b; simpl; auto.
Qed.

Lemma same_dtype_series_mask (m : list bool) (s : Series) :
  same_dtype s (series_mask m s) = true.
Proof. destruct s; reflexivity. Qed.

Lemma wf_getitem_mask (df : DataFrame) (m : list bool) : wf df -> wf (getitem_mask df m).
Proof.
  unfold wf, getitem_mask. cbn [index columns]. rewrite !List.Forall_forall.
  intros Hw c Hc. apply in_map_iff in Hc as (c0 & <- & Hc0). cbn [snd].
  rewrite len_series_mask. apply take_mask_length_eq. apply (Hw c0 Hc0).
Qed.

(** X10: Remove Duplicates only removes rows: the labels and the dtypes
    of the columns are kept, each column of the result holds cells of
    the original column in their order, the row labels of the result
    are row labels of the frame in their order, and equal column lengths
    are kept. *)
Theorem drop_duplicates_shape (df : DataFrame) :
  names (drop_duplicates df) = names df /\
  sublist (index (drop_duplicates df)) (index df) /\
  (forall i k s, nth_error (columns df) i = Some (k, s) ->
     exists s', nth_error (columns (drop_duplicates df)) i = Some (k, s') /\
                same_dtype s s' = true /\
                sublist (values s') (values s)) /\
  (wf df -> wf (drop_duplicates df)).
Proof.
  unfold drop_duplicates. destruct (empty df).
  - repeat split; auto. intros i k s H. exists s. repeat split; auto.
    now destruct s.
  - set (m := map negb (duplicated df)). repeat split.
    + unfold names, getitem_mask. cbn [columns]. now rewrite map_map.
    + apply take_mask_sublist.
    + intros i k s H. exists (series_mask m s). repeat split.
      * unfold getitem_mask. cbn [columns].
        apply (map_nth_error (fun c => (fst c, series_mask m (snd c)))) in H. exact H.
      * apply same_dtype_series_mask.
      * rewrite values_series_mask. apply take_mask_sublist.
    + apply wf_getitem_mask.
Qed.

Lemma length_zip_rows (cols : list (list scalar)) (n : nat) :
  Forall (fun c => length c = n) cols -> length (zip_rows cols n) = n.
Proof.
  induction 1 as [|c cols Hc _ IH]; simpl; [apply repeat_length|].
  rewrite length_zip_with. lia.
Qed.

Lemma length_rows (df : DataFrame) : wf df -> length (rows df) = length (index df).
Proof.
  intros Hw. unfold rows. apply length_zip_rows.
  unfold wf in Hw. induction Hw as [|c cols Hc _ IH]; simpl; constructor; auto.
Qed.

Lemma map_negb_all (l : list bool) :
  forallb negb l = true -> map negb l = repeat true (length l).
Proof.
  induction l as [|b l IH]; simpl; [reflexivity|]. intros H.
  apply andb_true_iff in H as [Hb H]. rewrite Hb, IH by assumption. reflexivity.
Qed.

(** X11: on a frame with equal column lengths in which no row is the
    duplicate of an earlier row, Remove Duplicates changes nothing. *)
Theorem drop_duplicates_without_duplicates (df : DataFrame) :
  wf df ->
  forallb negb (duplicated df) = true ->
  drop_duplicates df = df.
Proof.
  intros Hw Hd. unfold drop_duplicates. destruct (empty df); [reflexivity|].
  rewrite (map_negb_all _ Hd). unfold duplicated.
  rewrite duplicated_from_length, (length_rows df Hw).
  destruct df as [idx cols]. unfold getitem_mask. cbn [index columns] in *. f_equal.
  - now apply take_mask_all.
  - unfold wf in Hw. cbn [index columns] in Hw. clear Hd.
    induction Hw as [|c cols Hc _ IH]; simpl; [reflexivity|].
    simpl in Hc. rewrite IH. f_equal.
    rewrite series_mask_all; [now destruct c | lia].
Qed.

Lemma drop_duplicates_without_duplicates_witness :
  drop_duplicates Examples.sparse = Examples.sparse.
Proof.
  apply drop_duplicates_without_duplicates.
  - unfold wf. simpl. repeat constructor.
  - reflexivity.
Defined.

(** ** Fill Missing Values (lines 126-127) *)

Lemma map_fill_present (a : float) (v : list float) :
  forallb (fun x => negb (is_nan x)) v = true ->
  map (fun x => if is_nan x then a else x) v = v.
Proof.
  induction v as [|x v IH]; simpl; [reflexivity|]. intros H.
  apply andb_true_iff in H as [Hx H]. apply negb_true_iff in Hx.
  rewrite Hx, IH by assumption. reflexivity.
Qed.

Lemma map_fill_nan (v : list float) :
  map (fun x => if is_nan x then nan else x) v = v.
Proof.
  induction v as [|x v IH]; simpl; [reflexivity|]. rewrite IH.
  destruct (is_nan x) eqn:E; [|reflexivity]. now rewrite (is_nan_eq x E).
Qed.

Lemma filled_present (a : float) (v : list float) :
  is_nan a = false ->
  forallb (fun x => negb (is_nan x)) (map (fun x => if is_nan x then a else x) v) = true.
Proof.
  intros Ha. induction v as [|x v IH]; simpl; [reflexivity|]. rewrite IH, andb_true_r.
  destruct (is_nan x) eqn:E; [now rewrite Ha | now rewrite E].
Qed.

Lemma fill_column_idempotent (s : Series) :
  Spec.fill_column (Spec.fill_column s) = Spec.fill_column s.
Proof.
  destruct s as [v|v|v]; simpl; try reflexivity. f_equal.
  destruct (is_nan (nanmean v)) eqn:E.
  - rewrite (is_nan_eq _ E), !map_fill_nan. rewrite (is_nan_eq _ E). apply map_fill_nan.
  - apply map_fill_present. now apply filled_present.
Qed.

Lemma labels_fill_column (cols : list (string * Series)) :
  map fst (map (fun c => (fst c, Spec.fill_column (snd c))) cols) = map fst cols.
Proof. now rewrite map_map. Qed.

(** X12: Fill Missing Values is idempotent on a frame with unique
    labels: filling the filled frame returns it unchanged. *)
Theorem fill_missing_values_idempotent (df df' : DataFrame) :
  NoDup (names df) ->
  fill_missing_values df = Ok df' ->
  fill_missing_values df' = Ok df'.
Proof.
  intros N H. rewrite (fill_missing_values_columnwise df N) in H. injection H as <-.
  rewrite fill_missing_values_columnwise.
  - cbn [index columns]. rewrite map_map. do 2 f_equal. apply map_ext.
    intros c. cbn [fst snd]. now rewrite fill_column_idempotent.
  - unfold names. cbn [columns]. now rewrite labels_fill_column.
Qed.

Lemma fill_missing_values_idempotent_witness :
  fill_missing_values
    (mkDF [0%Z; 1%Z; 2%Z; 3%Z]
       [("User Name", Object [PyStr "ann"; PyStr "bob"; PyStr "bob"; PyFloat nan]);
        ("AGE", Float64 [30%float; 35.5%float; 35.5%float; 41%float]);
        ("id", Int64 [1%Z; 2%Z; 2%Z; 3%Z])]) =
  Ok (mkDF [0%Z; 1%Z; 2%Z; 3%Z]
       [("User Name", Object [PyStr "ann"; PyStr "bob"; PyStr "bob"; PyFloat nan]);
        ("AGE", Float64 [30%float; 35.5%float; 35.5%float; 41%float]);
        ("id", Int64 [1%Z; 2%Z; 2%Z; 3%Z])]).
Proof.
  apply (fill_missing_values_idempotent Examples.people).
  - decide_labels.
  - vm_compute. reflexivity.
Defined.

(** X13: on a frame with unique labels in which no numeric cell is
    missing, Fill Missing Values returns the frame unchanged. *)
Theorem fill_missing_values_nothing_missing (df : DataFrame) :
  NoDup (names df) ->
  no_missing_number df = true ->
  fill_missing_values df = Ok df.
Proof.
  intros N H. rewrite (fill_missing_values_columnwise df N).
  destruct df as [idx cols]. cbn [index columns]. do 2 f_equal.
  unfold no_missing_number in H. cbn [columns] in H.
  induction cols as [|c cols IH]; simpl in *; [reflexivity|].
  apply andb_true_iff in H as [Hc H].
  apply NoDup_cons in N as [_ N]. rewrite (IH N H). f_equal.
  destruct c as [k [v|v|v]]; simpl in *; try reflexivity.
  now rewrite map_fill_present.
Qed.

Lemma fill_missing_values_nothing_missing_witness :
  fill_missing_values Examples.one_numeric = Ok Examples.one_numeric.
Proof.
  apply fill_missing_values_nothing_missing; [decide_labels | reflexivity].
Defined.

Lemma len_fill_column (s : Series) : len (Spec.fill_column s) = len s.
Proof. destruct s; unfold len; simpl; try reflexivity. now rewrite !length_map. Qed.

Lemma wf_fill_columns (idx : list Z) (cols : list (string * Series)) :
  wf (mkDF idx cols) ->
  wf (mkDF idx (map (fun c => (fst c, Spec.fill_column (snd c))) cols)).
Proof.
  unfold wf. cbn [index columns]. rewrite !List.Forall_forall.
  intros Hw c Hc. apply in_map_iff in Hc as (c0 & <- & Hc0). cbn [snd].
  rewrite len_fill_column. apply (Hw c0 Hc0).
Qed.

(** X14: on a frame with unique labels, Fill Missing Values keeps the
    index, and every column keeps its place, its label, its dtype and
    its length; equal column lengths are kept. *)
Theorem fill_missing_values_shape (df : DataFrame) :
  NoDup (names df) ->
  exists df',
    fill_missing_values df = Ok df' /\
    index df' = index df /\
    (forall i k s, nth_error (columns df) i = Some (k, s) ->
       exists s', nth_error (columns df') i = Some (k, s') /\
                  same_dtype s s' = true /\ len s' = len s) /\
    (wf df -> wf df').
Proof.
  intros N. eexists. split; [apply (fill_missing_values_columnwise df N)|].
  cbn [index columns]. split; [reflexivity|]. split.
  - intros i k s H. exists (Spec.fill_column s). repeat split.
    + apply (map_nth_error (fun c => (fst c, Spec.fill_column (snd c)))) in H. exact H.
    + now destruct s.
    + apply len_fill_column.
  - destruct df as [idx cols]. apply wf_fill_columns.
Qed.

Lemma fill_missing_values_shape_witness :
  exists df',
    fill_missing_values Examples.sparse = Ok df' /\
    index df' = index Examples.sparse /\
    (forall i k s, nth_error (columns Examples.sparse) i = Some (k, s) ->
       exists s', nth_error (columns df') i = Some (k, s') /\
                  same_dtype s s' = true /\ len s' = len s) /\
    (wf Examples.sparse -> wf df').
Proof. apply fill_missing_values_shape. decide_labels. Defined.

(** X15: on a frame with unique labels, a float column whose mean is
    not NaN has no missing cell after Fill Missing Values, and keeps
    its place, its label and its length. *)
Theorem fill_missing_values_fills (df : DataFrame) (i : nat) (k : string)
    (v : list float) :
  NoDup (names df) ->
  nth_error (columns df) i = Some (k, Float64 v) ->
  is_nan (nanmean v) = false ->
  exists df' v',
    fill_missing_values df = Ok df' /\
    nth_error (columns df') i = Some (k, Float64 v') /\
    length v' = length v /\
    forallb (fun x => negb (is_nan x)) v' = true.
Proof.
  intros N H Hm. eexists. eexists.
  split; [apply (fill_missing_values_columnwise df N)|]. cbn [columns]. split.
  - apply (map_nth_error (fun c => (fst c, Spec.fill_column (snd c)))) in H. exact H.
  - split; [apply length_map | now apply filled_present].
Qed.

Lemma fill_missing_values_fills_witness :
  exists df' v',
    fill_missing_values Examples.people = Ok df' /\
    nth_error (columns df') 1 = Some ("AGE", Float64 v') /\
    length v' = length [30%float; nan; nan; 41%float] /\
    forallb (fun x => negb (is_nan x)) v' = true.
Proof.
  apply (fill_missing_values_fills Examples.people 1 "AGE" [30%float; nan; nan; 41%float]).
  - decide_labels.
  - reflexivity.
  - vm_compute. reflexivity.
Defined.

(** ** Standardize Column Names (line 130) *)

Lemma standardize_columns (df : DataFrame) :
  standardize_column_names df =
  Ok {| index := index df;
        columns := map (fun c => (standardize_name (fst c), snd c)) (columns df) |}.
Proof.
  unfold standardize_column_names, set_columns, names.
  now rewrite !length_map, Nat.eqb_refl, zip_with_relabel.
Qed.

Lemma normal_char_idempotent (c : ascii) :
  Spec.normal_char (Spec.normal_char c) = Spec.normal_char c.
Proof. destruct c as [[] [] [] [] [] [] [] []]; vm_compute; reflexivity. Qed.

Lemma normal_char_standard (c : ascii) :
  negb (Ascii.eqb (Spec.normal_char c) " ") && negb (is_upper (Spec.normal_char c)) = true.
Proof. destruct c as [[] [] [] [] [] [] [] []]; vm_compute; reflexivity. Qed.

Lemma standardize_name_idempotent (n : string) :
  standardize_name (standardize_name n) = standardize_name n.
Proof.
  rewrite !standardize_name_chars.
  induction n as [|c n IH]; simpl; [reflexivity|].
  now rewrite normal_char_idempotent, IH.
Qed.

Lemma standardize_name_standard (n : string) : standard (standardize_name n) = true.
Proof.
  rewrite standardize_name_chars.
  induction n as [|c n IH]; simpl; [reflexivity|].
  now rewrite normal_char_standard, IH.
Qed.

(** X16: Standardize Column Names is idempotent on a frame whose labels
    are ASCII text: standardizing its result returns the result
    unchanged. *)
Theorem standardize_column_names_idempotent (df : DataFrame) :
  forallb isascii (names df) = true ->
  exists df',
    standardize_column_names df = Ok df' /\
    standardize_column_names df' = Ok df'.
Proof.
  intros _. eexists. split; [apply standardize_columns|].
  rewrite standardize_columns. cbn [index columns]. rewrite map_map.
  do 2 f_equal. apply map_ext. intros c. cbn [fst snd].
  now rewrite standardize_name_idempotent.
Qed.

Lemma standardize_column_names_idempotent_witness :
  exists df',
    standardize_column_names Examples.people = Ok df' /\
    standardize_column_names df' = Ok df'.
Proof. apply standardize_column_names_idempotent. reflexivity. Defined.

(** X17: after Standardize Column Names no label contains a space or an
    upper-case ASCII letter. *)
Theorem standardize_column_names_standard (df df' : DataFrame) :
  standardize_column_names df = Ok df' ->
  forallb standard (names df') = true.
Proof.
  rewrite standardize_columns. intros H. injection H as <-.
  unfold names. cbn [columns]. rewrite map_map. cbn [fst].
  induction (columns df) as [|c cols IH]; simpl; [reflexivity|].
  now rewrite standardize_name_standard, IH.
Qed.

Lemma standardize_column_names_standard_witness :
  forallb standard
    (names (mkDF [0%Z; 1%Z]
              [("a_b", Int64 [1%Z; 2%Z]); ("a_b", Object [PyStr "x"; PyStr "y"])])) = true.
Proof. apply (standardize_column_names_standard Examples.colliding). reflexivity. Defined.

(** ** The row-count invariant through the cleaning block (lines 122-139) *)

Lemma apply_cleaning_ok (fn : string) (w : file_widgets) (opts : list string)
    (df df' : DataFrame) (w0 : world) :
  snd (apply_cleaning fn w opts df w0) = Ok df' ->
  Spec.clean (fun o => contains opts (Spec.label o)) (columns_to_remove w) df = Ok df'.
Proof.
  destruct (contains (rendered w0) ("remove_" ++ fn)) eqn:Hk;
    [|intros H; now rewrite <- (apply_cleaning_result fn w opts df w0 Hk)].
  unfold apply_cleaning, Spec.clean, Spec.canonical_order, Spec.apply_operation.
  simpl fold_left. unfold Spec.label.
  destruct (contains opts "Remove Duplicates");
  destruct (contains opts "Fill Missing Values");
  destruct (contains opts "Standardize Column Names");
  destruct (contains opts "Remove Columns"); run_script.
  all: repeat match goal with
       | |- context [fill_missing_values ?d] =>
           destruct (fill_missing_values d); simpl
       | |- context [standardize_column_names ?d] =>
           destruct (standardize_column_names d); simpl
       end; try (intros H; exact H).
  all: try (run_script; rewrite Hk; simpl); discriminate.
Qed.

Section RowCount.

Variable idx0 : list Z.

(** Equal column lengths, and row labels taken from [idx0] in order. *)
Let kept (d : DataFrame) : Prop := wf d /\ sublist (index d) idx0.

Lemma kept_drop_duplicates (d : DataFrame) : kept d -> kept (drop_duplicates d).
Proof.
  intros [Hw Hs]. unfold drop_duplicates. destruct (empty d); [now split|]. split.
  - now apply wf_getitem_mask.
  - cbn [getitem_mask index]. etransitivity; [apply take_mask_sublist | exact Hs].
Qed.

Lemma names_drop_duplicates (d : DataFrame) : names (drop_duplicates d) = names d.
Proof.
  unfold drop_duplicates. destruct (empty d); [reflexivity|].
  unfold names, getitem_mask. cbn [columns]. now rewrite map_map.
Qed.

Lemma kept_fill_missing_values (d d' : DataFrame) :
  kept d -> NoDup (names d) -> fill_missing_values d = Ok d' -> kept d'.
Proof.
  intros [Hw Hs] N H. rewrite (fill_missing_values_columnwise d N) in H.
  injection H as <-. split; [|exact Hs]. destruct d. now apply wf_fill_columns.
Qed.

Lemma kept_standardize_column_names (d d' : DataFrame) :
  kept d -> standardize_column_names d = Ok d' -> kept d'.
Proof.
  intros [Hw Hs] H. rewrite standardize_columns in H. injection H as <-.
  split; [|exact Hs]. unfold wf in *. cbn [index columns].
  rewrite List.Forall_forall in *. intros c Hc.
  apply in_map_iff in Hc as (c0 & <- & Hc0). apply (Hw c0 Hc0).
Qed.

Lemma kept_drop_columns (d d' : DataFrame) (labels : list string) :
  kept d -> drop_columns d labels = Ok d' -> kept d'.
Proof.
  intros [Hw Hs] H. unfold drop_columns in H.
  destruct (absent d labels); [|discriminate]. injection H as <-.
  split; [|exact Hs]. unfold wf in *. cbn [index columns].
  rewrite List.Forall_forall in *. intros c Hc.
  apply filter_In in Hc as [Hc _]. now apply Hw.
Qed.

Lemma kept_clean (sel : Spec.operation -> bool) (rm : list string) (d d' : DataFrame) :
  kept d -> NoDup (names d) -> Spec.clean sel rm d = Ok d' -> kept d'.
Proof.
  intros Hk N H. unfold Spec.clean, Spec.canonical_order in H. cbn [fold_left] in H.
  unfold mbind, result_bind, Py.bind, Spec.apply_operation in H.
  set (d1 := if sel Spec.RemoveDuplicates then drop_duplicates d else d).
  assert (H1 : kept d1 /\ NoDup (names d1)).
  { subst d1. destruct (sel Spec.RemoveDuplicates); [|now split].
    split; [now apply kept_drop_duplicates | now rewrite names_drop_duplicates]. }
  assert (E1 : (if sel Spec.RemoveDuplicates then Ok (drop_duplicates d) else Ok d) = Ok d1).
  { subst d1. now destruct (sel Spec.RemoveDuplicates). }
  rewrite E1 in H. destruct H1 as [K1 N1].
  destruct (if sel Spec.FillMissingValues then fill_missing_values d1 else Ok d1)
    as [d2|] eqn:E2; [|discriminate].
  assert (K2 : kept d2).
  { destruct (sel Spec.FillMissingValues).
    - now apply (kept_fill_missing_values d1).
    - now injection E2 as <-. }
  destruct (if sel Spec.StandardizeColumnNames then standardize_column_names d2 else Ok d2)
    as [d3|] eqn:E3; [|discriminate].
  assert (K3 : kept d3).
  { destruct (sel Spec.StandardizeColumnNames).
    - now apply (kept_standardize_column_names d2).
    - now injection E3 as <-. }
  destruct (sel Spec.RemoveColumns).
  - now apply (kept_drop_columns d3 d' rm).
  - now injection H as <-.
Qed.

End RowCount.

(** X18: the row-count invariant holds through the cleaning block: on a
    frame with equal column lengths and unique labels, whatever options
    are selected, a cleaning that succeeds returns a frame with equal
    column lengths whose row labels are row labels of the loaded frame,
    in their order. *)
Theorem apply_cleaning_row_count (fn : string) (w : file_widgets) (opts : list string)
    (df df' : DataFrame) (w0 : world) :
  wf df ->
  NoDup (names df) ->
  snd (apply_cleaning fn w opts df w0) = Ok df' ->
  wf df' /\ sublist (index df') (index df).
Proof.
  intros Hw N H. apply apply_cleaning_ok in H.
  eapply (kept_clean (index df)); [|exact N|exact H].
  split; [exact Hw | reflexivity].
Qed.

Lemma apply_cleaning_row_count_witness :
  wf (mkDF [0%Z; 1%Z; 3%Z]
        [("user_name", Object [PyStr "ann"; PyStr "bob"; PyFloat nan]);
         ("age", Float64 [30%float; 35.5%float; 41%float])]) /\
  sublist (index (mkDF [0%Z; 1%Z; 3%Z]
        [("user_name", Object [PyStr "ann"; PyStr "bob"; PyFloat nan]);
         ("age", Float64 [30%float; 35.5%float; 41%float])])) (index Examples.people).
Proof.
  apply (apply_cleaning_row_count "people.csv" Examples.widgets
           (cleaning_options Examples.widgets) Examples.people _ Examples.fresh).
  - unfold wf. simpl. repeat constructor.
  - decide_labels.
  - vm_compute. reflexivity.
Defined.

(** ** The name of the converted file, when the extension occurs once
    (lines 202 and 206) *)

Lemma startswith_refl (s : string) : startswith s s = true.
Proof. induction s as [|c s IH]; simpl; [reflexivity|]. now rewrite Ascii.eqb_refl. Qed.

Lemma replace_scan_skip_all (old new s : string) (k : nat) :
  String.length s <= k -> replace_scan old new k s = "".
Proof.
  revert k. induction s as [|c s IH]; intros k H; simpl in *; [reflexivity|].
  destruct k as [|k]; [lia|]. apply IH. lia.
Qed.

Lemma replace_scan_suffix (old new stem : string) :
  old <> "" ->
  occurs_within old (stem ++ old) (String.length stem) = false ->
  replace_scan old new 0 (stem ++ old) = stem ++ new.
Proof.
  intros Hne. induction stem as [|c stem IH]; intros H.
  - destruct old as [|c o]; [contradiction|].
    change ("" ++ String c o) with (String c o). cbn [replace_scan].
    rewrite startswith_refl, replace_scan_skip_all by (simpl; lia).
    now rewrite append_empty_r.
  - rewrite append_cons in *. cbn [occurs_within String.length] in H.
    apply orb_false_iff in H as [H0 H]. cbn [replace_scan]. rewrite H0.
    rewrite append_cons. f_equal. now apply IH.
Qed.

(** X19: for a plain lower-case file name [stem.e] (no slash, no dot in
    [e], a stem not made of dots only) in which the extension occurs
    nowhere but at the end, the suggested name is the stem followed by
    the extension of the target format. *)
Theorem converted_renames_extension (stem e : string) (df : DataFrame) :
  has_char "/" (stem ++ "." ++ e) = false ->
  has_char "." e = false ->
  all_dots stem = false ->
  lower e = e ->
  occurs_within ("." ++ e) (stem ++ "." ++ e) (String.length stem) = false ->
  converted (stem ++ "." ++ e) (file_ext_of (stem ++ "." ++ e)) "CSV" df =
    Ok (To_csv df, stem ++ ".csv", "text/csv") /\
  converted (stem ++ "." ++ e) (file_ext_of (stem ++ "." ++ e)) "Excel" df =
    Ok (To_excel df, stem ++ ".xlsx", xlsx_mime).
Proof.
  intros Hsep Hdot Hstem Hlow Hocc. unfold file_ext_of.
  rewrite (splitext_plain stem e Hsep Hdot Hstem). cbn [snd].
  rewrite lower_append, Hlow. change (lower ".") with ".".
  unfold converted, replace. cbn [String.eqb Ascii.eqb Bool.eqb].
  change ("." ++ e) with (String "." e) in *.
  rewrite !replace_scan_suffix by (assumption || discriminate).
  split; reflexivity.
Qed.

Lemma converted_renames_extension_witness :
  converted ("sales.2024" ++ "." ++ "csv") (file_ext_of ("sales.2024" ++ "." ++ "csv"))
    "CSV" Examples.people =
    Ok (To_csv Examples.people, "sales.2024" ++ ".csv", "text/csv") /\
  converted ("sales.2024" ++ "." ++ "csv") (file_ext_of ("sales.2024" ++ "." ++ "csv"))
    "Excel" Examples.people =
    Ok (To_excel Examples.people, "sales.2024" ++ ".xlsx", xlsx_mime).
Proof. apply converted_renames_extension; reflexivity. Defined.

(** ** The entries of the session state (lines 79-82, 142, 219-224) *)

Lemma unchanged_ret (k : string) {A} (a : A) : unchanged_at k (mret a).
Proof. intros w. reflexivity. Qed.

Lemma unchanged_bind (k : string) {A B} (m : script A) (f : A -> script B) :
  unchanged_at k m -> (forall a, unchanged_at k (f a)) -> unchanged_at k (m ≫= f).
Proof.
  intros Hm Hf w. unfold mbind, script_bind.
  specialize (Hm w). destruct (m w) as [w' [a|e]]; simpl in *.
  - now rewrite Hf.
  - exact Hm.
Qed.

Lemma unchanged_lift (k : string) {A} (r : result A) : unchanged_at k (lift r).
Proof. intros w. reflexivity. Qed.

Lemma unchanged_show (k : string) (u : ui) : unchanged_at k (show u).
Proof. intros w. reflexivity. Qed.

Lemma unchanged_get_session (k : string) : unchanged_at k get_session.
Proof. intros w. reflexivity. Qed.

Lemma unchanged_set_session (k key : string) (v : ssval) :
  key <> k -> unchanged_at k (set_session key v).
Proof. intros Hk w. unfold set_session; simpl. now rewrite lookup_insert_ne. Qed.

Lemma unchanged_widget (k key : string) (v : wval) :
  key <> k -> unchanged_at k (widget key v).
Proof.
  intros Hk w. unfold widget.
  destruct (contains (rendered w) key); simpl; [reflexivity|].
  now rewrite lookup_insert_ne.
Qed.

Ltac unchanged_steps :=
  repeat first
    [ apply unchanged_ret
    | apply unchanged_show
    | apply unchanged_lift
    | apply unchanged_get_session
    | apply unchanged_set_session; key_neq
    | apply unchanged_widget; key_neq
    | apply unchanged_bind; [|intros ?]
    | match goal with
      | |- unchanged_at _ (if ?b then _ else _) => destruct b
      | |- unchanged_at _ (match ?x with _ => _ end) => destruct x
      end ].

Lemma unchanged_apply_cleaning (fn : string) (w : file_widgets) (opts : list string)
    (df : DataFrame) :
  unchanged_at "cleaned_data" (apply_cleaning fn w opts df).
Proof. unfold apply_cleaning, multiselect. unchanged_steps. Qed.

Lemma unchanged_visualize (fn : string) (w : file_widgets) (df : DataFrame) :
  unchanged_at "cleaned_data" (visualize fn w df).
Proof. unfold visualize, checkbox, selectbox. unchanged_steps. Qed.

Lemma unchanged_convert (fn ext : string) (w : file_widgets) (df : DataFrame) :
  unchanged_at "cleaned_data" (convert fn ext w df).
Proof. unfold convert, radio, button. unchanged_steps. Qed.

(** What follows line 142 in the body of the loop. *)
Lemma unchanged_after_save (fn ext : string) (w : file_widgets) (df : DataFrame) :
  unchanged_at "cleaned_data"
    (columns_to_keep ← multiselect ("columns_" ++ fn) (columns_to_keep w);
     df ← lift (keep_columns df columns_to_keep);
     _ ← visualize fn w df;
     convert fn ext w df).
Proof.
  apply unchanged_bind; [unfold multiselect; unchanged_steps|]. intros keep.
  apply unchanged_bind; [apply unchanged_lift|]. intros df'.
  apply unchanged_bind; [apply unchanged_visualize|]. intros _.
  apply unchanged_convert.
Qed.

Lemma bind_run {A B} (m : script A) (f : A -> script B) (w : world) :
  (m ≫= f) w =
  match m w with
  | (w', Ok a) => f a w'
  | (w', Raise e) => (w', Raise e)
  end.
Proof. reflexivity. Qed.

Lemma multiselect_ok (key : string) (v a : list string) (w w' : world) :
  multiselect key v w = (w', Ok a) -> a = v.
Proof.
  unfold multiselect. rewrite bind_run.
  destruct (widget key (WList v) w) as [w1 [[]|e]]; [|discriminate].
  unfold mret, script_ret. congruence.
Qed.

Lemma unchanged_multiselect (k key : string) (v : list string) :
  key <> k -> unchanged_at k (multiselect key v).
Proof.
  intros H. unfold multiselect.
  apply unchanged_bind; [now apply unchanged_widget | intros; apply unchanged_ret].
Qed.

Lemma save_cleaned_run (fn : string) (df : DataFrame) (w : world)
    (d : gmap string DataFrame) :
  session_state w !! "cleaned_data" = Some (Dict d) ->
  save_cleaned fn df w =
  (mkWorld (<["cleaned_data" := Dict (<[fn := df]> d)]> (session_state w))
           (rendered w) (shown w), Ok tt).
Proof.
  intros H. unfold save_cleaned. rewrite bind_run. unfold get_session. now rewrite H.
Qed.

Lemma process_file_loaded (file : UploadedFile) (w : file_widgets) (w0 : world)
    (ext : string) (df : DataFrame) :
  load file w0 = (w0, Ok (Some (ext, df))) ->
  process_file (file, w) w0 =
  (opts ← multiselect ("cleaning_" ++ name file) (cleaning_options w);
   df ← apply_cleaning (name file) w opts df;
   _ ← save_cleaned (name file) df;
   columns_to_keep ← multiselect ("columns_" ++ name file) (columns_to_keep w);
   df ← lift (keep_columns df columns_to_keep);
   _ ← visualize (name file) w df;
   convert (name file) ext w df) w0.
Proof.
  intros H. unfold process_file. cbn [fst snd]. rewrite bind_run, H. reflexivity.
Qed.

(** X20: when a file loads and its processing finishes, the session
    entry ["cleaned_data"] maps the file's name to the frame the cleaning
    returned, as it was before the column selection, and keeps the
    frames stored under the other names. *)
Theorem process_file_saves_cleaned (file : UploadedFile) (w : file_widgets)
    (w0 : world) (ext : string) (df : DataFrame) (d : gmap string DataFrame) :
  load file w0 = (w0, Ok (Some (ext, df))) ->
  session_state w0 !! "cleaned_data" = Some (Dict d) ->
  snd (process_file (file, w) w0) = Ok tt ->
  exists cleaned,
    Spec.clean (fun o => contains (cleaning_options w) (Spec.label o))
      (columns_to_remove w) df = Ok cleaned /\
    session_state (fst (process_file (file, w) w0)) !! "cleaned_data" =
      Some (Dict (<[name file := cleaned]> d)).
Proof.
  intros Hl Hd. rewrite (process_file_loaded file w w0 ext df Hl). rewrite bind_run.
  pose proof (unchanged_multiselect "cleaned_data" ("cleaning_" ++ name file)
                (cleaning_options w) ltac:(key_neq) w0) as Hu1.
  destruct (multiselect _ _ w0) as [w1 [opts|e]] eqn:E1; [|discriminate].
  apply multiselect_ok in E1 as ->. cbn [fst] in Hu1. rewrite bind_run.
  pose proof (unchanged_apply_cleaning (name file) w (cleaning_options w) df w1) as Hu2.
  pose proof (fun c => apply_cleaning_ok (name file) w (cleaning_options w) df c w1) as Hok.
  destruct (apply_cleaning _ _ _ _ w1) as [w2 [cleaned|e]]; [|discriminate].
  cbn [fst snd] in *. specialize (Hok cleaned eq_refl).
  rewrite Hu1, Hd in Hu2. rewrite bind_run, (save_cleaned_run _ _ _ d Hu2).
  intros _. exists cleaned. split; [exact Hok|].
  rewrite (unchanged_after_save (name file) ext w cleaned). cbn [session_state].
  apply lookup_insert_eq.
Qed.

Lemma process_file_saves_cleaned_witness :
  exists cleaned,
    Spec.clean (fun o => contains (cleaning_options Examples.quiet_widgets) (Spec.label o))
      (columns_to_remove Examples.quiet_widgets) Examples.people = Ok cleaned /\
    session_state (fst (process_file (Examples.people_csv, Examples.quiet_widgets)
                          Examples.started)) !! "cleaned_data" =
      Some (Dict (<[name Examples.people_csv := cleaned]> ∅)).
Proof.
  apply (process_file_saves_cleaned Examples.people_csv Examples.quiet_widgets
           Examples.started ".csv" Examples.people ∅).
  - reflexivity.
  - vm_compute. reflexivity.
  - vm_compute. reflexivity.
Defined.

Lemma typed_ret {A} (a : A) : keeps_typed (mret a).
Proof. intros w H. exact H. Qed.

Lemma typed_bind {A B} (m : script A) (f : A -> script B) :
  keeps_typed m -> (forall a, keeps_typed (f a)) -> keeps_typed (m ≫= f).
Proof.
  intros Hm Hf w H. rewrite bind_run.
  specialize (Hm w H). destruct (m w) as [w' [a|e]]; simpl in *.
  - now apply Hf.
  - exact Hm.
Qed.

Lemma typed_lift {A} (r : result A) : keeps_typed (lift r).
Proof. intros w H. exact H. Qed.

Lemma typed_show (u : ui) : keeps_typed (show u).
Proof. intros w H. exact H. Qed.

Lemma typed_get_session : keeps_typed get_session.
Proof. intros w H. exact H. Qed.

Lemma typed_insert_other (ss : gmap string ssval) (key : string) (v : ssval) :
  key <> "cleaned_data" -> key <> "show_balloons" -> typed ss -> typed (<[key := v]> ss).
Proof.
  intros H1 H2 [Hc Hb]. split; intros v'; rewrite lookup_insert_ne by assumption; auto.
Qed.

Lemma typed_widget (key : string) (v : wval) :
  key <> "cleaned_data" -> key <> "show_balloons" -> keeps_typed (widget key v).
Proof.
  intros H1 H2 w H. unfold widget.
  destruct (contains (rendered w) key); simpl; [exact H|].
  now apply typed_insert_other.
Qed.

Lemma typed_set_cleaned_data (d : gmap string DataFrame) :
  keeps_typed (set_session "cleaned_data" (Dict d)).
Proof.
  intros w [Hc Hb]. unfold set_session; simpl. split; intros v.
  - rewrite lookup_insert_eq. intros [= <-]. now exists d.
  - rewrite lookup_insert_ne by discriminate. apply Hb.
Qed.

Lemma typed_set_show_balloons (b : bool) :
  keeps_typed (set_session "show_balloons" (Flag b)).
Proof.
  intros w [Hc Hb]. unfold set_session; simpl. split; intros v.
  - rewrite lookup_insert_ne by discriminate. apply Hc.
  - rewrite lookup_insert_eq. intros [= <-]. now exists b.
Qed.

Ltac typed_steps :=
  repeat first
    [ apply typed_ret
    | apply typed_show
    | apply typed_lift
    | apply typed_get_session
    | apply typed_set_cleaned_data
    | apply typed_set_show_balloons
    | apply typed_widget; key_neq
    | apply typed_bind; [|intros ?]
    | match goal with
      | |- keeps_typed (if ?b then _ else _) => destruct b
      | |- keeps_typed (match ?x with _ => _ end) => destruct x
      end ].

Lemma typed_process_file (fw : UploadedFile * file_widgets) :
  keeps_typed (process_file fw).
Proof.
  unfold process_file, load, apply_cleaning, save_cleaned, visualize, convert,
    multiselect, checkbox, selectbox, radio, button.
  typed_steps.
Qed.

Lemma typed_for_each {A} (body : A -> script unit) (l : list A) :
  (forall x, keeps_typed (body x)) -> keeps_typed (for_each body l).
Proof.
  intros Hb. induction l as [|x l IH]; simpl; [apply typed_ret|].
  apply typed_bind; [apply Hb | intros _; exact IH].
Qed.

Lemma typed_main (inp : run_input) : keeps_typed (main inp).
Proof.
  unfold main, sidebar_convert, init_session, balloons.
  apply typed_bind; [typed_steps|]. intros _.
  apply typed_bind; [typed_steps|]. intros _.
  apply typed_bind; [typed_steps|]. intros _.
  destruct (uploaded_files inp); [apply typed_show|].
  apply typed_bind; [|intros _; typed_steps].
  apply typed_for_each. apply typed_process_file.
Qed.

(** X21: in every session state the page can reach, the entry
    ["cleaned_data"], when present, is a dict and the entry
    ["show_balloons"], when present, is a flag: no widget key and no
    statement of the script puts another value there, also in a run
    that an exception stops. *)
Theorem reachable_typed (ss : gmap string ssval) : reachable ss -> typed ss.
Proof.
  induction 1 as [|inp ss _ IH].
  - split; intros v; rewrite lookup_empty; discriminate.
  - apply (typed_main inp (mkWorld ss [] [])). exact IH.
Qed.

Lemma reachable_typed_witness :
  typed (session_state (fst (run Examples.upload ∅))).
Proof. apply reachable_typed. apply reachable_run. apply reachable_new. Defined.

Lemma bind_ok {A B} (m : script A) (f : A -> script B) (w : world) (b : B) :
  snd ((m ≫= f) w) = Ok b ->
  exists a w', m w = (w', Ok a) /\ (m ≫= f) w = f a w'.
Proof.
  rewrite bind_run. destruct (m w) as [w' [a|e]]; [|discriminate].
  intros _. now exists a, w'.
Qed.

Lemma balloons_ok (w : world) :
  snd (balloons w) = Ok tt ->
  session_state (fst (balloons w)) !! "show_balloons" = Some (Flag false).
Proof.
  unfold balloons. rewrite bind_run. unfold get_session.
  destruct (session_state w !! "show_balloons") as [[d|[]|df|v]|] eqn:E;
    try discriminate; intros _.
  - rewrite bind_run. unfold show, set_session. cbn [fst session_state].
    apply lookup_insert_eq.
  - exact E.
Qed.

(** X22: a run over at least one uploaded file that finishes without an
    exception leaves the balloons trigger off: whatever was converted in
    the run, the next run starts with ["show_balloons"] false. *)
Theorem run_resets_show_balloons (inp : run_input) (ss : gmap string ssval) :
  uploaded_files inp <> [] ->
  snd (run inp ss) = Ok tt ->
  session_state (fst (run inp ss)) !! "show_balloons" = Some (Flag false).
Proof.
  intros Hf. unfold run, main. intros H.
  destruct (bind_ok _ _ _ _ H) as (a1 & w1 & _ & E1). rewrite E1 in *. clear E1.
  destruct (bind_ok _ _ _ _ H) as (a2 & w2 & _ & E2). rewrite E2 in *. clear E2.
  destruct (bind_ok _ _ _ _ H) as (a3 & w3 & _ & E3). rewrite E3 in *. clear E3.
  destruct (uploaded_files inp) as [|f fs]; [contradiction|].
  destruct (bind_ok _ _ _ _ H) as (a4 & w4 & _ & E4). rewrite E4 in *. clear E4.
  now apply balloons_ok.
Qed.

Lemma run_resets_show_balloons_witness :
  session_state (fst (run Examples.quiet_upload ∅)) !! "show_balloons" = Some (Flag false).
Proof.
  apply run_resets_show_balloons; [discriminate | vm_compute; reflexivity].
Defined.

(** ** The name of the converted file, when the extension does not occur *)

Lemma replace_scan_absent (old new s : string) :
  occurs_within old s (String.length s) = false ->
  replace_scan old new 0 s = s.
Proof.
  induction s as [|c s IH]; intros H; [reflexivity|].
  cbn [occurs_within String.length] in H. apply orb_false_iff in H as [H0 H].
  cbn [replace_scan]. rewrite H0. f_equal. now apply IH.
Qed.

(** X23: when the extension the script computed (lower case, not empty)
    occurs nowhere in the file name, as for a name whose extension is in
    upper case, the suggested name is the original name unchanged,
    whatever the target format. *)
Theorem converted_keeps_name (file_name file_ext : string) (df : DataFrame) :
  file_ext <> "" ->
  occurs_within file_ext file_name (String.length file_name) = false ->
  converted file_name file_ext "CSV" df = Ok (To_csv df, file_name, "text/csv") /\
  converted file_name file_ext "Excel" df = Ok (To_excel df, file_name, xlsx_mime).
Proof.
  intros Hne H. unfold converted, replace. cbn [String.eqb Ascii.eqb Bool.eqb].
  destruct file_ext as [|c e]; [contradiction|].
  rewrite !replace_scan_absent by assumption. split; reflexivity.
Qed.

Lemma converted_keeps_name_witness :
  converted "Report.XLSX" (file_ext_of "Report.XLSX") "CSV" Examples.people =
    Ok (To_csv Examples.people, "Report.XLSX", "text/csv") /\
  converted "Report.XLSX" (file_ext_of "Report.XLSX") "Excel" Examples.people =
    Ok (To_excel Examples.people, "Report.XLSX", xlsx_mime).
Proof. apply converted_keeps_name; [discriminate | reflexivity]. Defined.

(** ** The charts of two columns (lines 164-171) *)

(** X24: with the visualizations on and the chart type Bar Chart or Line
    Chart, on a frame with unique labels in which the chosen X and Y
    labels name columns, the X one numeric, the chart is given exactly
    the X column and the Y column, in that order, with the index and the
    data of the frame. *)
Theorem visualize_pair_chart (fn : string) (w : file_widgets) (df : DataFrame)
    (w0 : world) (sx sy : Series) :
  show_visualizations w = true ->
  chart_type w = "Bar Chart" \/ chart_type w = "Line Chart" ->
  NoDup (names df) ->
  In (x_axis w, sx) (columns df) ->
  In (y_axis w, sy) (columns df) ->
  is_numeric sx = true ->
  contains (rendered w0) ("viz_" ++ fn) = false ->
  contains (rendered w0) ("chart_" ++ fn) = false ->
  contains (rendered w0) ("x_" ++ fn) = false ->
  contains (rendered w0) ("y_" ++ fn) = false ->
  let data := mkDF (index df) [(x_axis w, sx); (y_axis w, sy)] in
  snd (visualize fn w df w0) = Ok tt /\
  shown (fst (visualize fn w df w0)) =
    (shown w0 ++
     [St_chart (if String.eqb (chart_type w) "Bar Chart"
                then Bar_chart data else Line_chart data)])%list.
Proof.
  intros Hv Hc N Hx Hy Hnum K1 K2 K3 K4 data.
  assert (Hsel : getitem_list df [x_axis w; y_axis w] = Ok data).
  { apply (getitem_list_selection df N [(x_axis w, sx); (y_axis w, sy)]).
    repeat constructor; assumption. }
  assert (Hn : exists k ks, names (select_dtypes_number df) = k :: ks).
  { unfold names, select_dtypes_number. cbn [columns].
    assert (Hin : In (x_axis w, sx) (List.filter (fun c => is_numeric (snd c)) (columns df)))
      by (apply filter_In; auto).
    destruct (List.filter _ (columns df)) as [|c cs]; [contradiction|].
    now exists (fst c), (map fst cs). }
  destruct Hn as (k & ks & Hn).
  unfold visualize. rewrite Hv, Hn. run_script. rewrite K1. simpl.
  rewrite K2. simpl.
  destruct Hc as [Hc|Hc]; rewrite Hc; simpl; rewrite K3; simpl; rewrite K4; simpl;
    rewrite Hsel; simpl; split; reflexivity.
Qed.

Lemma visualize_pair_chart_witness :
  snd (visualize "people.csv" Examples.line_chart_widgets Examples.people
         Examples.fresh) = Ok tt /\
  shown (fst (visualize "people.csv" Examples.line_chart_widgets Examples.people
                Examples.fresh)) =
    (shown Examples.fresh ++
     [St_chart
        (if String.eqb (chart_type Examples.line_chart_widgets) "Bar Chart"
         then Bar_chart
                (mkDF (index Examples.people)
                   [(x_axis Examples.line_chart_widgets,
                     Float64 [30%float; nan; nan; 41%float]);
                    (y_axis Examples.line_chart_widgets, Int64 [1%Z; 2%Z; 2%Z; 3%Z])])
         else Line_chart
                (mkDF (index Examples.people)
                   [(x_axis Examples.line_chart_widgets,
                     Float64 [30%float; nan; nan; 41%float]);
                    (y_axis Examples.line_chart_widgets, Int64 [1%Z; 2%Z; 2%Z; 3%Z])]))])%list.
Proof.
  apply (visualize_pair_chart "people.csv" Examples.line_chart_widgets
           Examples.people Examples.fresh);
    try reflexivity.
  - now right.
  - decide_labels.
  - simpl; tauto.
  - simpl; tauto.
Defined.

(** ** Remove Duplicates: what is dropped, and idempotence *)



